(** * The chat request pipeline and the chat window, verified

    A shallow embedding of the three route handlers ([POST] of the plain
    OpenAI route and of the two Google-enabled routes) and of the
    [ChatWindow] component, with the properties the specification states
    about them.

    Layout:
    - [Js]: the JavaScript values the handlers touch (parsed JSON, thrown
      errors, the console), and a small monad for code that logs and throws;
    - [Agent]: the agent engine as the handlers see it, and the history
      filter the routes share;
    - [PlainRoute], [GoogleRoute]: the server side ([POST]);
    - [ChatWindow]: the client side (callbacks, rendering, user gestures);
    - [Examples]: concrete requests, collaborators and window states;
    - the theorems, one group per component, and their instances. *)

From Stdlib Require Import String Ascii List Bool Arith Lia DecimalString.
From stdpp Require Import base option list strings gmap.
Import ListNotations.

Open Scope string_scope.

(* ===================================================================== *)
(** * JavaScript values, errors and effects *)
(* ===================================================================== *)

Module Js.

(** A JSON number, by the two observations this code can make of it:
    whether it is truthy (every number but [0] and [-0]) and its [String()]
    rendering.  No handler does arithmetic or comparison on a parsed number. *)
Record JsNumber := { num_truthy : bool; num_text : string }.

Set Warnings "-register-all".

(** What [JSON.parse] produces.  An object keeps its members in source order;
    a repeated key is resolved by [own_property] (the last one wins). *)
Inductive JSON :=
| JNull
| JBool (b : bool)
| JNum (n : JsNumber)
| JStr (s : string)
| JArr (items : list JSON)
| JObj (members : list (string * JSON)).

(** A thrown value: an [Error] object, of which the handlers read
    [e.message] and [e.status] (both possibly [undefined]). *)
Record JsError := { message : option string; status : option nat }.

(** [new Error(msg)]. *)
Definition new_Error (msg : string) : JsError :=
  {| message := Some msg; status := None |}.

(** [TypeError]s raised by the language itself carry a message and no status. *)
Definition TypeError (msg : string) : JsError := new_Error msg.

(** The result of evaluating an expression, or of awaiting a promise. *)
Inductive Outcome (A : Type) :=
| Return (a : A)
| Throw (e : JsError).
Arguments Return {A} a.
Arguments Throw {A} e.

#[global] Instance Outcome_ret : MRet Outcome := fun A a => Return a.
#[global] Instance Outcome_bind : MBind Outcome := fun A B f m =>
  match m with
  | Return a => f a
  | Throw e => Throw e
  end.

(** [obj.k] on a parsed object: the value of the last member named [k]. *)
Fixpoint own_property {V : Type} (k : string) (members : list (string * V)) : option V :=
  match members with
  | [] => None
  | (k', v) :: rest =>
      match own_property k rest with
      | Some w => Some w
      | None => if String.eqb k k' then Some v else None
      end
  end.

(** [v.k] for a property name [k] that no prototype defines (the handlers read
    [messages], [role] and [error] only): [None] is [undefined]; reading a
    property of [null] throws. *)
Definition get_property (v : JSON) (k : string) : Outcome (option JSON) :=
  match v with
  | JNull => Throw (TypeError ("Cannot read properties of null (reading '" ++ k ++ "')"))
  | JObj members => Return (own_property k members)
  | _ => Return None
  end.

(** [v ?? d]: [d] replaces [undefined] and [null] only. *)
Definition nullish_or (v : option JSON) (d : JSON) : JSON :=
  match v with
  | None | Some JNull => d
  | Some x => x
  end.

(** [v === s] for a string literal [s]. *)
Definition strict_eq_string (v : option JSON) (s : string) : bool :=
  match v with
  | Some (JStr t) => String.eqb t s
  | _ => false
  end.

(** Truthiness of a string: [!s] holds of the empty string only. *)
Definition truthy_string (s : string) : bool := negb (String.eqb s "").

(** The string a truthy [v] holds, for a possibly [undefined] string
    ([process.env.X], an access token): [if (v) { ... v ... } else { ... }]
    takes its first branch exactly when this is [Some]. *)
Definition truthy_value (v : option string) : option string :=
  match v with
  | Some t => if truthy_string t then Some t else None
  | None => None
  end.

(** Truthiness of a property value. *)
Definition truthy (v : option JSON) : bool :=
  match v with
  | None | Some JNull => false
  | Some (JBool b) => b
  | Some (JNum n) => num_truthy n
  | Some (JStr s) => truthy_string s
  | Some (JArr _) | Some (JObj _) => true
  end.

(** [items.join(",")] over already rendered items. *)
Fixpoint join_comma (items : list string) : string :=
  match items with
  | [] => ""
  | [s] => s
  | s :: rest => s ++ "," ++ join_comma rest
  end.

(** [String(v)], which throws for an object that cannot be converted to a
    primitive: an array joins its items with commas, rendering [null] as the
    empty string; a plain object renders as [[object Object]] unless a member
    named [toString] hides the inherited method. *)
Fixpoint to_String (v : JSON) : Outcome string :=
  match v with
  | JNull => Return "null"
  | JBool true => Return "true"
  | JBool false => Return "false"
  | JNum n => Return (num_text n)
  | JStr s => Return s
  | JArr items =>
      rendered ←
        (fix render (l : list JSON) : Outcome (list string) :=
           match l with
           | [] => Return []
           | x :: rest =>
               s ← match x with JNull => Return "" | _ => to_String x end;
               ss ← render rest;
               Return ((s : string) :: ss)
           end) items;
      Return (join_comma rendered)
  | JObj members =>
      match own_property "toString" members with
      | Some _ => Throw (TypeError "Cannot convert object to primitive value")
      | None => Return "[object Object]"
      end
  end.

(** [s.includes(sub)]. *)
Fixpoint starts_with (sub s : string) : bool :=
  match sub, s with
  | EmptyString, _ => true
  | String a sub', String b s' => Ascii.eqb a b && starts_with sub' s'
  | String _ _, EmptyString => false
  end.

Fixpoint includes (s sub : string) : bool :=
  starts_with sub s ||
  match s with
  | EmptyString => false
  | String _ s' => includes s' sub
  end.

(** [sub] occurs in [s]: what [includes] decides. *)
Definition occurs_in (sub s : string) : Prop :=
  exists pre post, s = pre ++ sub ++ post.

(** Decimal rendering of a status code, as a template literal does it. *)
Definition decimal (n : nat) : string := NilEmpty.string_of_uint (Nat.to_uint n).

(** ** The console and the effect monad *)

Inductive Level := log | warn | error.

(** One [console.<level>(text, arg)] call. *)
Record LogLine := { level : Level; text : string; arg : option JsError }.

(** A computation that writes to the console and then returns or throws. *)
Record Eff (A : Type) := { console_output : list LogLine; outcome : Outcome A }.
Arguments console_output {A} _.
Arguments outcome {A} _.

#[global] Instance Eff_ret : MRet Eff := fun A a =>
  {| console_output := []; outcome := Return a |}.
#[global] Instance Eff_bind : MBind Eff := fun A B f m =>
  match outcome m with
  | Return a =>
      {| console_output := console_output m ++ console_output (f a);
         outcome := outcome (f a) |}
  | Throw e => {| console_output := console_output m; outcome := Throw e |}
  end.

(** [await p], for a promise that settles as [p]; also plain evaluation of an
    expression that may throw. *)
Definition await {A : Type} (p : Outcome A) : Eff A :=
  {| console_output := []; outcome := p |}.

Definition console (l : Level) (t : string) (a : option JsError) : Eff unit :=
  {| console_output := [ {| level := l; text := t; arg := a |} ]; outcome := Return tt |}.

(** [try { body } catch (e) { handler e }]. *)
Definition try_catch {A : Type} (body : Eff A) (handler : JsError -> Eff A) : Eff A :=
  match outcome body with
  | Return a => body
  | Throw e =>
      {| console_output := console_output body ++ console_output (handler e);
         outcome := outcome (handler e) |}
  end.

End Js.

(* ===================================================================== *)
(** * The agent engine, as the handlers see it *)
(* ===================================================================== *)

Module Agent.
Import Js.

Inductive Provider := ChatGoogleGenerativeAI | ChatOpenAI.

(** [new ChatGoogleGenerativeAI({ model, apiKey, temperature })] and
    [new ChatOpenAI({ model, temperature })]. *)
Record LLM := {
  provider : Provider;
  model : string;
  apiKey : option string;
  temperature : nat
}.

(** The capabilities a handler can hand to the agent, with the constructor
    arguments the source passes. *)
Inductive Tool :=
| Calculator
| SerpAPI (key : string)
| GmailSearch (accessToken : string)
| GmailCreateDraft (accessToken : string)
| GoogleCalendarCreateTool (accessToken calendarId : string) (llm : LLM)
| GoogleCalendarViewTool (accessToken calendarId : string) (llm : LLM).

(** [createReactAgent({ llm, tools, messageModifier: new SystemMessage(text) })]. *)
Record ReactAgent := createReactAgent {
  agent_llm : LLM;
  tools : list Tool;
  messageModifier : string
}.

(** [agent.streamEvents({ messages }, { version: 'v2' })]: the lazy event
    sequence is represented by what it was started from, and by whether the
    development logger was put around it. *)
Record EventStream (M : Type) := {
  agent : ReactAgent;
  messages : list M;
  tool_call_logging : bool
}.
Arguments agent {M} _.
Arguments messages {M} _.
Arguments tool_call_logging {M} _.

Definition streamEvents {M : Type} (a : ReactAgent) (history : list M) : EventStream M :=
  {| agent := a; messages := history; tool_call_logging := false |}.

(** Modelled from the spec: [logToolCallsInDevelopment] of
    [@/utils/stream-logging], which is not among the sources.  It forwards the
    events of the stream it is given, in order, and logs tool calls in
    development only. *)
Definition logToolCallsInDevelopment {M : Type} (s : EventStream M) : EventStream M :=
  {| agent := agent s; messages := messages s; tool_call_logging := true |}.

(** What a handler returns: [NextResponse.json({ error }, { status })], where
    an [undefined] error leaves the body without that member, or
    [LangChainAdapter.toDataStreamResponse(stream)].  [NextResponse.json]
    builds a response for a status from 200 to 599 and throws for any other;
    the constructor stands for the call at such a status, and a statement
    about a status taken from a caught error says so in a hypothesis. *)
Inductive Response (M : Type) :=
| NextResponse_json (error : option string) (status : nat)
| toDataStreamResponse (stream : EventStream M).
Arguments NextResponse_json {M} error status.
Arguments toDataStreamResponse {M} stream.

(** The HTTP status of a response; a data stream response is a plain [200]. *)
Definition http_status {M : Type} (r : Response M) : nat :=
  match r with
  | NextResponse_json _ st => st
  | toDataStreamResponse _ => 200
  end.

(** The incoming request: [await req.json()] resolves to the parsed body or
    rejects (a body that is not JSON). *)
Record NextRequest := { json : Outcome JSON }.

(** [a || d] on a possibly [undefined] string. *)
Definition or_string (a : option string) (d : string) : string :=
  match a with
  | Some s => if truthy_string s then s else d
  | None => d
  end.

Section History.

Context {LangChainMessage : Type}.
(** The message converter of [@/utils/message-converters]. *)
Variable convertVercelMessageToLangChainMessage : JSON -> LangChainMessage.

(** The filter callback:
    [message.role === 'user' || message.role === 'assistant']. *)
Definition chat_role (message : JSON) : Outcome bool :=
  role ← get_property message "role";
  mret (strict_eq_string role "user" || strict_eq_string role "assistant").

(** [items.filter(f)], for a callback that may throw. *)
Fixpoint filter_array (f : JSON -> Outcome bool) (items : list JSON) : Outcome (list JSON) :=
  match items with
  | [] => mret []
  | x :: rest =>
      keep ← f x;
      kept ← filter_array f rest;
      mret (if (keep : bool) then x :: kept else kept)
  end.

(** [(body.messages ?? []).filter(...).map(convertVercelMessageToLangChainMessage)]. *)
Definition history (body : JSON) : Outcome (list LangChainMessage) :=
  messages ← get_property body "messages";
  match nullish_or messages (JArr []) with
  | JArr items =>
      kept ← filter_array chat_role items;
      mret (List.map convertVercelMessageToLangChainMessage kept)
  | _ => Throw (TypeError "(body.messages ?? []).filter is not a function")
  end.

End History.

(** ** The specification's reading of the history filter *)

(** A message whose [role] is 'user' or 'assistant'. *)
Definition has_chat_role (message : JSON) : bool :=
  match message with
  | JObj members =>
      strict_eq_string (own_property "role" members) "user"
      || strict_eq_string (own_property "role" members) "assistant"
  | _ => false
  end.

(** [replayed all kept]: [kept] holds exactly the messages of [all] with a
    chat role, in their original relative order. *)
Inductive replayed : list JSON -> list JSON -> Prop :=
| replayed_nil : replayed [] []
| replayed_keep m all kept :
    has_chat_role m = true -> replayed all kept -> replayed (m :: all) (m :: kept)
| replayed_drop m all kept :
    has_chat_role m = false -> replayed all kept -> replayed (m :: all) kept.

End Agent.

(* ===================================================================== *)
(** * The plain route: an agent without tools *)
(* ===================================================================== *)

Module PlainRoute.
Import Js Agent.

Definition AGENT_SYSTEM_TEMPLATE : string :=
  "You are a personal assistant named Assistant0. You are a helpful assistant that can answer questions and help with tasks. You have access to a set of tools, use the tools as needed to answer the user's question.".

Section Handler.

Context {LangChainMessage : Type}.
Variable convertVercelMessageToLangChainMessage : JSON -> LangChainMessage.

Definition POST (req : NextRequest) : Eff (Response LangChainMessage) :=
  try_catch
    (body ← await (json req);
     messages ← await (history convertVercelMessageToLangChainMessage body);
     let chat :=
       {| provider := ChatOpenAI; model := "gpt-4"; apiKey := None; temperature := 0 |} in
     let agent := createReactAgent chat [] AGENT_SYSTEM_TEMPLATE in
     let eventStream := streamEvents agent messages in
     mret (toDataStreamResponse eventStream))
    (fun e => mret (NextResponse_json (message e) (default 500 (status e)))).

End Handler.

End PlainRoute.

(* ===================================================================== *)
(** * The Google-enabled routes: provisioning with fallbacks *)
(* ===================================================================== *)

Module GoogleRoute.
Import Js Agent.

(** What the handler obtains from outside during one request: the process
    environment, how [getGoogleAccessToken()] settles (a token, [undefined],
    or a rejection), and which Google tool constructors throw. *)
Record Collaborators := {
  process_env : gmap string string;
  getGoogleAccessToken : Outcome (option string);
  constructor_failure : Tool -> option JsError
}.

(** [new T(params)] for a Google tool [T]. *)
Definition new (w : Collaborators) (t : Tool) : Outcome Tool :=
  match constructor_failure w t with
  | Some e => Throw e
  | None => Return t
  end.

Definition newline : string := String (ascii_of_nat 10) EmptyString.

(** The note of the branch taken when no access token comes back. *)
Definition NO_TOKEN_NOTE : string :=
  newline ++ newline ++
  "NOTE: Google integrations (Gmail, Calendar) are currently unavailable. You don't have permission to access Google services." ++
  newline ++ newline ++
  "To fix this issue: Please sign out, then sign back in and make sure to allow all requested permissions.".

(** The remediation hint chosen in the [catch (googleError)] block. *)
Definition errorContext (googleError : JsError) : string :=
  if from_option (fun m => includes m "insufficient authentication scopes") false (message googleError)
  then "Insufficient Google API permissions. The app needs additional permissions to access your Google data."
  else if from_option (fun m => includes m "token") false (message googleError)
  then "Authentication token error. Please try logging out and back in to refresh your permissions."
  else "Google integration error".

(** The note of the [catch (googleError)] block. *)
Definition ERROR_NOTE (googleError : JsError) : string :=
  newline ++ newline ++
  "NOTE: Google integrations (Gmail, Calendar) are currently unavailable: " ++
  errorContext googleError ++
  ". Please try logging out and back in with Google to fix this issue.".

Section Handler.

Context {LangChainMessage : Type}.
Variable convertVercelMessageToLangChainMessage : JSON -> LangChainMessage.
(** The two routes differ in their template and in the model they name. *)
Variable AGENT_SYSTEM_TEMPLATE : string.
Variable MODEL : string.

(** [llm]: the model client, built with the key found in the environment. *)
Definition llm (key : string) : LLM :=
  {| provider := ChatGoogleGenerativeAI; model := MODEL;
     apiKey := Some key; temperature := 0 |}.

(** [basicTools]: the calculator, and the search tool when its key is set. *)
Definition basicTools (w : Collaborators) : Eff (list Tool) :=
  match truthy_value (process_env w !! "SERPAPI_API_KEY") with
  | Some key => mret [Calculator; SerpAPI key]
  | None =>
      _ ← console warn "SERPAPI_API_KEY not configured - web search functionality will be unavailable" None;
      mret [Calculator]
  end.

(** Stream from an agent, with the development logging around it. *)
Definition respond (llm : LLM) (tools : list Tool) (template : string)
    (messages : list LangChainMessage) : Response LangChainMessage :=
  let agent := createReactAgent llm tools template in
  let eventStream := streamEvents agent messages in
  let transformedStream := logToolCallsInDevelopment eventStream in
  toDataStreamResponse transformedStream.

(** The four Google tools of the array literal, constructed in order; the
    first constructor that throws ends the construction. *)
Definition googleTools (w : Collaborators) (token : string) (llm : LLM) : Outcome (list Tool) :=
  gmailSearch ← new w (GmailSearch token);
  gmailCreateDraft ← new w (GmailCreateDraft token);
  calendarCreate ← new w (GoogleCalendarCreateTool token "primary" llm);
  calendarView ← new w (GoogleCalendarViewTool token "primary" llm);
  mret [gmailSearch; gmailCreateDraft; calendarCreate; calendarView].

(** The inner [try { ... } catch (googleError) { ... }]: acquire the token,
    build the Google tools, and fall back to [basicTools] on any failure. *)
Definition provision (w : Collaborators) (llm : LLM) (basicTools : list Tool)
    (messages : list LangChainMessage) : Eff (Response LangChainMessage) :=
  try_catch
    (accessToken ← await (getGoogleAccessToken w);
     match truthy_value accessToken with
     | None =>
         _ ← console warn "No Google access token available - falling back to basic tools" None;
         mret (respond llm basicTools (AGENT_SYSTEM_TEMPLATE ++ NO_TOKEN_NOTE) messages)
     | Some token =>
         _ ← console log "Successfully retrieved Google access token, initializing tools" None;
         google ← await (googleTools w token llm);
         let tools := (basicTools ++ google)%list in
         _ ← console log "Successfully created Google tools, creating agent" None;
         mret (respond llm tools AGENT_SYSTEM_TEMPLATE messages)
     end)
    (fun googleError =>
       _ ← console error "Google API access error:" (Some googleError);
       _ ← console log "Falling back to LLM without Google integrations" None;
       mret (respond llm basicTools (AGENT_SYSTEM_TEMPLATE ++ ERROR_NOTE googleError) messages)).

Definition POST (req : NextRequest) (w : Collaborators) : Eff (Response LangChainMessage) :=
  try_catch
    (body ← await (json req);
     messages ← await (history convertVercelMessageToLangChainMessage body);
     match truthy_value (process_env w !! "GOOGLE_API_KEY") with
     | None =>
         _ ← console error "Missing GOOGLE_API_KEY environment variable" None;
         mret (NextResponse_json (Some "Server configuration error: Missing Gemini API key") 500)
     | Some key =>
         tools ← basicTools w;
         provision w (llm key) tools messages
     end)
    (fun e =>
       _ ← console error "API error:" (Some e);
       mret (NextResponse_json (Some (or_string (message e) "Unknown server error"))
                               (default 500 (status e)))).

End Handler.

(** The template and model of the first Google route. *)
Definition SIMPLE_AGENT_SYSTEM_TEMPLATE : string :=
  "You are Simple, your friendly personal assistant who keeps it simple. I'm here to help with tasks, answer questions, and make your life easier with these powerful tools at my disposal:

1. Calculator: I can solve math problems and perform calculations for you.
2. Web Search: I can search the internet for current information, news, or facts.
3. Gmail: I can search your emails and create email drafts.
4. Google Calendar: I can view your calendar and create new events.

I'll proactively suggest using these tools when they can help with your request.

When I need more information to help you effectively:
- I'll ask specific, clear questions to get the details I need
- For calendar events, I'll ask for date, time, title, and any other missing information
- For emails, I'll ask for recipient, subject, and content details if not provided
- I won't guess critical information that could lead to errors

Formatting Guidelines:
Calendar Events:  
Date: YYYY-MM-DD  
Time: HH:MM - HH:MM  
Event Name: Bold and clear  
Location: Where it's at  
Summary: One short sentence

Emails:  
Clean markdown for clarity  
Summarize long emails  
Keep it neat and simple

General Tips:  
Short and sweet  
Consistent spacing  
Readability is key!

Let's get startedâ€”I'm here to help with a smile!".

Definition SIMPLE_MODEL : string := "gemini-2.5-flash-preview-04-17".

(** The template and model of the second Google route. *)
Definition ASSISTANT0_AGENT_SYSTEM_TEMPLATE : string :=
  "You are a personal assistant named Assistant0. You are a helpful assistant that can answer questions and help with tasks. You have access to a set of tools, use the tools as needed to answer the user's question. Render the email body as a markdown block, do not wrap it in code blocks.".

Definition ASSISTANT0_MODEL : string := "gemini-2.0-flash".

(** ** Vocabulary for the statements about the route *)

(** The four tools built from an access token. *)
Definition google_tools (token : string) (llm : LLM) : list Tool :=
  [GmailSearch token; GmailCreateDraft token;
   GoogleCalendarCreateTool token "primary" llm;
   GoogleCalendarViewTool token "primary" llm].

(** The extended-capability path raises [e]: the token acquisition rejects
    with it, or a usable token comes back and a tool constructor throws it. *)
Inductive extended_path_raises (w : Collaborators) (llm : LLM) : JsError -> Prop :=
| acquisition_raises e :
    getGoogleAccessToken w = Throw e -> extended_path_raises w llm e
| construction_raises tok token e :
    getGoogleAccessToken w = Return tok -> truthy_value tok = Some token ->
    googleTools w token llm = Throw e -> extended_path_raises w llm e.

(** The three remediation hints. *)
Definition SCOPE_HINT : string :=
  "Insufficient Google API permissions. The app needs additional permissions to access your Google data.".
Definition TOKEN_HINT : string :=
  "Authentication token error. Please try logging out and back in to refresh your permissions.".
Definition GENERIC_HINT : string := "Google integration error".

(** Console lines the handler writes. *)
Definition missing_key_line : LogLine :=
  {| level := error; text := "Missing GOOGLE_API_KEY environment variable"; arg := None |}.

Definition search_warning : LogLine :=
  {| level := warn;
     text := "SERPAPI_API_KEY not configured - web search functionality will be unavailable";
     arg := None |}.

Definition no_token_warning : LogLine :=
  {| level := warn;
     text := "No Google access token available - falling back to basic tools";
     arg := None |}.

Definition retrieved_line : LogLine :=
  {| level := log;
     text := "Successfully retrieved Google access token, initializing tools";
     arg := None |}.

Definition created_line : LogLine :=
  {| level := log; text := "Successfully created Google tools, creating agent"; arg := None |}.

Definition fallback_lines (e : JsError) : list LogLine :=
  [ {| level := error; text := "Google API access error:"; arg := Some e |};
    {| level := log; text := "Falling back to LLM without Google integrations"; arg := None |} ].

(** What the outer [catch (e)] answers. *)
Definition catch_all {M : Type} (e : JsError) : Eff (Response M) :=
  {| console_output := [ {| level := error; text := "API error:"; arg := Some e |} ];
     outcome :=
       Return (NextResponse_json (Some (or_string (message e) "Unknown server error"))
                                 (default 500 (status e))) |}.

End GoogleRoute.

(* ===================================================================== *)
(** * The chat window *)
(* ===================================================================== *)

Module ChatWindow.
Import Js.

(** [chat.status] of the [useChat] hook. *)
Inductive ChatStatus := submitted | streaming | ready | failed.

(** A message of [chat.messages]. *)
Record Message := { id : string; role : string; content : string }.

(** The response handed to [onResponse]: its status, and how
    [response.json()] settles. *)
Record FetchResponse := { response_status : nat; response_json : Outcome JSON }.

(** [response.ok]: a status in the range 200-299. *)
Definition ok (response : FetchResponse) : bool :=
  Nat.leb 200 (response_status response) && Nat.leb (response_status response) 299.

(** The component's own state ([hasError]), what the hook currently exposes
    ([chat.status], [chat.input], [chat.messages]) and [window.location.href]. *)
Record State := {
  hasError : option JsError;
  chat_status : ChatStatus;
  chat_input : string;
  chat_messages : list Message;
  location_href : string
}.

(** What a handler does besides updating the state. *)
Inductive Effect :=
| chat_handleSubmit
| toast_error (title : string) (description : option string)
| console_call (l : Level) (label : string) (value : option string).

Definition setHasError (e : option JsError) (s : State) : State :=
  {| hasError := e; chat_status := chat_status s; chat_input := chat_input s;
     chat_messages := chat_messages s; location_href := location_href s |}.

Definition set_location_href (url : string) (s : State) : State :=
  {| hasError := hasError s; chat_status := chat_status s; chat_input := chat_input s;
     chat_messages := chat_messages s; location_href := url |}.

(** ** The callbacks given to [useChat] *)

Definition onFinish (content : option string) (s : State) : State * list Effect :=
  (setHasError None s, [console_call log "Final response: " content]).

(** [new Error(data.error || 'Unknown error occurred')]: the constructor
    takes [String()] of its argument as the message. *)
Definition error_of_data (data : JSON) : Outcome JsError :=
  e ← get_property data "error";
  match e with
  | Some v =>
      if truthy e then msg ← to_String v; mret (new_Error msg)
      else mret (new_Error "Unknown error occurred")
  | None => mret (new_Error "Unknown error occurred")
  end.

(** The error that [response.json().then(...).catch(...)] ends up setting:
    [catch] takes over when the body does not parse and when the [then]
    callback throws. *)
Definition response_error (response : FetchResponse) : JsError :=
  match data ← response_json response; error_of_data data with
  | Return e => e
  | Throw _ =>
      new_Error ("Request failed with status " ++ decimal (response_status response))
  end.

(** [onResponse], taken at the point where the promise chain it starts for a
    non-success response has settled. *)
Definition onResponse (response : FetchResponse) (s : State) : State * list Effect :=
  let logged :=
    [console_call log "Response received. Status:" (Some (decimal (response_status response)))] in
  if negb (ok response)
  then (setHasError (Some (response_error response)) s, logged)
  else (setHasError None s, logged).

Definition onError (e : JsError) (s : State) : State * list Effect :=
  (setHasError (Some e) s,
   [console_call error "Error: " (message e);
    toast_error "Error while processing your request" (message e)]).

(** ** The component's functions *)

Definition isChatLoading (s : State) : bool :=
  match chat_status s with
  | streaming => true
  | _ => false
  end.

Definition sendMessage (s : State) : State * list Effect :=
  if isChatLoading s then (s, [])
  else (setHasError None s, [chat_handleSubmit]).

Definition retryConnection (s : State) : State * list Effect :=
  (set_location_href "/auth/logout?returnTo=/" (setHasError None s), []).

(** ** Rendering *)

(** The props [ChatWindow] passes to [ChatInput]. *)
Record ChatInputProps := {
  value : string;
  loading : bool;
  disabled : bool;
  placeholder : string
}.

Definition ChatInput_props (placeholder_prop : option string) (s : State) : ChatInputProps :=
  {| value := chat_input s;
     loading := isChatLoading s;
     disabled := bool_decide (is_Some (hasError s));
     placeholder :=
       if bool_decide (is_Some (hasError s))
       then "Please retry connection before sending messages"
       else default "What can I help you with?" placeholder_prop |}.

(** [<input disabled={props.disabled}>]. *)
Definition input_disabled (p : ChatInputProps) : bool := disabled p.

(** [<Button type="submit" disabled={props.loading || props.disabled}>]. *)
Definition submit_disabled (p : ChatInputProps) : bool := loading p || disabled p.

(** [ErrorNotification], with its Retry button, is rendered when there are
    messages and [hasError] is set. *)
Definition retry_rendered (s : State) : bool :=
  negb (Nat.eqb (length (chat_messages s)) 0) && bool_decide (is_Some (hasError s)).

(** ** User gestures and events *)

(** What the user can do to the rendered window.  The browser delivers a
    click to an enabled button only, and submits the form on Enter only from
    an enabled input whose form has an enabled submit button. *)
Inductive Gesture := PressEnter | ClickSubmit | ClickRetry.

Definition gesture (placeholder_prop : option string) (g : Gesture) (s : State)
    : State * list Effect :=
  let p := ChatInput_props placeholder_prop s in
  match g with
  | PressEnter =>
      if input_disabled p || submit_disabled p then (s, []) else sendMessage s
  | ClickSubmit =>
      if submit_disabled p then (s, []) else sendMessage s
  | ClickRetry =>
      if retry_rendered s then retryConnection s else (s, [])
  end.

(** Everything that can happen to the window: a user gesture, one of the
    hook's callbacks, or a re-render with new values from the hook. *)
Inductive Event :=
| User (g : Gesture)
| Response (response : FetchResponse)
| Finish (content : option string)
| Failure (e : JsError)
| Hook (status : ChatStatus) (input : string) (messages : list Message).

Definition step (placeholder_prop : option string) (s : State) (ev : Event)
    : State * list Effect :=
  match ev with
  | User g => gesture placeholder_prop g s
  | Response r => onResponse r s
  | Finish c => onFinish c s
  | Failure e => onError e s
  | Hook st i ms =>
      ({| hasError := hasError s; chat_status := st; chat_input := i;
          chat_messages := ms; location_href := location_href s |}, [])
  end.

(** The window after a sequence of events, with everything the handlers did
    on the way. *)
Fixpoint run (placeholder_prop : option string) (s : State) (evs : list Event)
    : State * list Effect :=
  match evs with
  | [] => (s, [])
  | ev :: rest =>
      let '(s1, done1) := step placeholder_prop s ev in
      let '(s2, done2) := run placeholder_prop s1 rest in
      (s2, (done1 ++ done2)%list)
  end.

(** ** The life of a request, as the hook reports it *)

(** The phases [chat.status] goes through, as the documentation of the
    [useChat] hook gives them: [submitted] from the call of [handleSubmit]
    until the response stream starts, [streaming] while it arrives, then
    [ready], or [failed] (the status the hook names 'error'). *)
Inductive Lifecycle := Submitted | StreamStarted | Completed | Errored.

Definition status_step (st : ChatStatus) (ev : Lifecycle) : ChatStatus :=
  match ev, st with
  | Submitted, _ => submitted
  | StreamStarted, submitted => streaming
  | Completed, (submitted | streaming) => ready
  | Errored, (submitted | streaming) => failed
  | _, _ => st
  end.

Definition status_after (trace : list Lifecycle) : ChatStatus :=
  fold_left status_step trace ready.

(** The specification's reading of loading: a request has been submitted and
    neither a completion nor an error has ended it yet. *)
Definition in_flight_step (b : bool) (ev : Lifecycle) : bool :=
  match ev with
  | Submitted => true
  | StreamStarted => b
  | Completed | Errored => false
  end.

Definition in_flight (trace : list Lifecycle) : bool :=
  fold_left in_flight_step trace false.

(** The statuses during which a request is in flight. *)
Definition in_flight_status (st : ChatStatus) : bool :=
  match st with
  | submitted | streaming => true
  | ready | failed => false
  end.

End ChatWindow.

(* ===================================================================== *)
(** * Concrete requests, collaborators and window states *)
(* ===================================================================== *)

Module Examples.
Import Js Agent.

(** A converter that keeps the message as it is. *)
Definition echo (message : JSON) : JSON := message.

Definition chat_message (role content : string) : JSON :=
  JObj [("id", JStr "m"); ("role", JStr role); ("content", JStr content)].

(** A conversation with a display-only system step in the middle. *)
Definition chat_body : JSON :=
  JObj [("messages",
         JArr [chat_message "user" "What is 2 + 2?";
               chat_message "system" "calculator: 4";
               chat_message "assistant" "4";
               chat_message "user" "Thanks"])].

Definition chat_history : list JSON :=
  [chat_message "user" "What is 2 + 2?"; chat_message "assistant" "4";
   chat_message "user" "Thanks"].

Definition chat_request : NextRequest := {| json := Return chat_body |}.

(** A body without a [messages] member, and the body [null]. *)
Definition bare_request : NextRequest := {| json := Return (JObj [("id", JStr "x")]) |}.
Definition null_request : NextRequest := {| json := Return JNull |}.

Definition TEMPLATE : string := GoogleRoute.SIMPLE_AGENT_SYSTEM_TEMPLATE.
Definition MODEL : string := GoogleRoute.SIMPLE_MODEL.

(** The model key is set and the search key is not. *)
Definition model_key_only : gmap string string := {[ "GOOGLE_API_KEY" := "g-key" ]}.

(** A token comes back and every tool is built. *)
Definition signed_in : GoogleRoute.Collaborators :=
  {| GoogleRoute.process_env := model_key_only;
     GoogleRoute.getGoogleAccessToken := Return (Some "ya29.token");
     GoogleRoute.constructor_failure := fun _ => None |}.

(** No environment at all. *)
Definition unconfigured : GoogleRoute.Collaborators :=
  {| GoogleRoute.process_env := ∅;
     GoogleRoute.getGoogleAccessToken := Return (Some "ya29.token");
     GoogleRoute.constructor_failure := fun _ => None |}.

(** The identity provider rejects the token request for missing scopes. *)
Definition scope_error : JsError :=
  new_Error "Request had insufficient authentication scopes.".

Definition insufficient_scope : GoogleRoute.Collaborators :=
  {| GoogleRoute.process_env := model_key_only;
     GoogleRoute.getGoogleAccessToken := Throw scope_error;
     GoogleRoute.constructor_failure := fun _ => None |}.

(** Nobody is signed in: the token comes back [undefined]. *)
Definition signed_out : GoogleRoute.Collaborators :=
  {| GoogleRoute.process_env := model_key_only;
     GoogleRoute.getGoogleAccessToken := Return None;
     GoogleRoute.constructor_failure := fun _ => None |}.

(** The identity provider reports an expired token. *)
Definition expired_error : JsError := new_Error "The access token has expired.".

Definition expired : GoogleRoute.Collaborators :=
  {| GoogleRoute.process_env := model_key_only;
     GoogleRoute.getGoogleAccessToken := Throw expired_error;
     GoogleRoute.constructor_failure := fun _ => None |}.

(** A token comes back, and the third tool constructor throws. *)
Definition calendar_error : JsError := new_Error "socket hang up".

Definition calendar_down : GoogleRoute.Collaborators :=
  {| GoogleRoute.process_env := {[ "GOOGLE_API_KEY" := "g-key"; "SERPAPI_API_KEY" := "s-key" ]};
     GoogleRoute.getGoogleAccessToken := Return (Some "ya29.token");
     GoogleRoute.constructor_failure :=
       fun t => match t with
                | GoogleCalendarCreateTool _ _ _ => Some calendar_error
                | _ => None
                end |}.

(** The chat window, blocked by an earlier failure. *)
Definition blocked : ChatWindow.State :=
  {| ChatWindow.hasError := Some (new_Error "forbidden");
     ChatWindow.chat_status := ChatWindow.failed;
     ChatWindow.chat_input := "hello again";
     ChatWindow.chat_messages :=
       [ {| ChatWindow.id := "1"; ChatWindow.role := "user"; ChatWindow.content := "hello" |} ];
     ChatWindow.location_href := "/" |}.

(** The chat window while a response streams in. *)
Definition receiving : ChatWindow.State :=
  {| ChatWindow.hasError := None;
     ChatWindow.chat_status := ChatWindow.streaming;
     ChatWindow.chat_input := "one more thing";
     ChatWindow.chat_messages :=
       [ {| ChatWindow.id := "1"; ChatWindow.role := "user"; ChatWindow.content := "hello" |} ];
     ChatWindow.location_href := "/" |}.

(** The chat window right after a submission, before the stream starts. *)
Definition awaiting : ChatWindow.State :=
  {| ChatWindow.hasError := None;
     ChatWindow.chat_status := ChatWindow.status_after [ChatWindow.Submitted];
     ChatWindow.chat_input := "";
     ChatWindow.chat_messages :=
       [ {| ChatWindow.id := "1"; ChatWindow.role := "user"; ChatWindow.content := "hello" |} ];
     ChatWindow.location_href := "/" |}.

(** A fresh window with a first message typed in. *)
Definition fresh : ChatWindow.State :=
  {| ChatWindow.hasError := None;
     ChatWindow.chat_status := ChatWindow.ready;
     ChatWindow.chat_input := "hello";
     ChatWindow.chat_messages := [];
     ChatWindow.location_href := "/" |}.

(** Two submissions before the first response stream starts; the first
    request then fails. *)
Definition overlapping_requests : list ChatWindow.Event :=
  [ ChatWindow.User ChatWindow.PressEnter;
    ChatWindow.Hook ChatWindow.submitted "and another thing"
      [ {| ChatWindow.id := "1"; ChatWindow.role := "user"; ChatWindow.content := "hello" |} ];
    ChatWindow.User ChatWindow.PressEnter;
    ChatWindow.Hook ChatWindow.submitted ""
      [ {| ChatWindow.id := "1"; ChatWindow.role := "user"; ChatWindow.content := "hello" |};
        {| ChatWindow.id := "2"; ChatWindow.role := "user";
           ChatWindow.content := "and another thing" |} ];
    ChatWindow.Failure (new_Error "Failed to fetch") ].

(** Responses the window may see. *)
Definition forbidden_response : ChatWindow.FetchResponse :=
  {| ChatWindow.response_status := 403;
     ChatWindow.response_json := Return (JObj [("error", JStr "forbidden")]) |}.



(** The stream the plain route starts for [chat_request]. *)
Definition plain_stream : EventStream JSON :=
  streamEvents
    (createReactAgent
       {| provider := ChatOpenAI; model := "gpt-4"; apiKey := None; temperature := 0 |}
       [] PlainRoute.AGENT_SYSTEM_TEMPLATE)
    chat_history.

End Examples.

(* ===================================================================== *)
(** * More of the routes and of the window *)
(* ===================================================================== *)

Module RouteView.
Import Js Agent GoogleRoute.

(** The failure of the first constructor, in the order of the array literal,
    that throws. *)
Fixpoint first_failure (w : Collaborators) (ts : list Tool) : option JsError :=
  match ts with
  | [] => None
  | t :: rest =>
      match constructor_failure w t with
      | Some e => Some e
      | None => first_failure w rest
      end
  end.

(** The string literals that the Google routes pass to the console. *)
Definition console_literals : list string :=
  [ "Missing GOOGLE_API_KEY environment variable";
    "SERPAPI_API_KEY not configured - web search functionality will be unavailable";
    "No Google access token available - falling back to basic tools";
    "Successfully retrieved Google access token, initializing tools";
    "Successfully created Google tools, creating agent";
    "Google API access error:";
    "Falling back to LLM without Google integrations";
    "API error:" ].

(** The ways through the inner [try]/[catch], each with the tools and the
    template the agent gets and the lines written on the way. *)
Inductive provisioned (TEMPLATE : string) (w : Collaborators) (llm : LLM)
    (basic : list Tool) : list Tool -> string -> list LogLine -> Prop :=
| without_token tok :
    getGoogleAccessToken w = Return tok -> truthy_value tok = None ->
    provisioned TEMPLATE w llm basic
      basic (TEMPLATE ++ NO_TOKEN_NOTE) [no_token_warning]
| token_rejected e :
    getGoogleAccessToken w = Throw e ->
    provisioned TEMPLATE w llm basic
      basic (TEMPLATE ++ ERROR_NOTE e) (fallback_lines e)
| tools_rejected tok token e :
    getGoogleAccessToken w = Return tok -> truthy_value tok = Some token ->
    googleTools w token llm = Throw e ->
    provisioned TEMPLATE w llm basic
      basic (TEMPLATE ++ ERROR_NOTE e) (retrieved_line :: fallback_lines e)
| fully tok token :
    getGoogleAccessToken w = Return tok -> truthy_value tok = Some token ->
    googleTools w token llm = Return (google_tools token llm) ->
    provisioned TEMPLATE w llm basic
      (basic ++ google_tools token llm)%list TEMPLATE [retrieved_line; created_line].

(** [Array.isArray(v)]. *)
Definition is_array (v : JSON) : bool :=
  match v with
  | JArr _ => true
  | _ => false
  end.

(** The body [{ "messages": items }]. *)
Definition conversation (items : list JSON) : JSON := JObj [("messages", JArr items)].

(** A status that a response can be built with: [NextResponse.json] takes a
    status from 200 to 599. *)
Definition status_accepted (e : JsError) : Prop :=
  match status e with
  | Some st => 200 <= st <= 599
  | None => True
  end.

End RouteView.

Module ChatView.
Import Js ChatWindow.

(** [ErrorNotification]: nothing without an error; otherwise the text under
    the heading, [props.error.message || "Try logging out ..."]. *)
Definition ErrorNotification (error : option JsError) : option string :=
  match error with
  | None => None
  | Some e =>
      Some (Agent.or_string (message e) "Try logging out and back in to refresh permissions")
  end.

(** The content of the window: the empty state while there are no messages,
    else the banner (when [hasError] is set) above the messages. *)
Definition banner (s : State) : option string :=
  if Nat.eqb (length (chat_messages s)) 0 then None else ErrorNotification (hasError s).

(** Kinds of effects and events, for counting along a run. *)
Definition is_handleSubmit (eff : Effect) : bool :=
  match eff with
  | chat_handleSubmit => true
  | _ => false
  end.

Definition is_toast (eff : Effect) : bool :=
  match eff with
  | toast_error _ _ => true
  | _ => false
  end.

Definition is_submission (ev : Event) : bool :=
  match ev with
  | User PressEnter | User ClickSubmit => true
  | _ => false
  end.

Definition is_retry (ev : Event) : bool :=
  match ev with
  | User ClickRetry => true
  | _ => false
  end.

Definition is_failure (ev : Event) : bool :=
  match ev with
  | Failure _ => true
  | _ => false
  end.

(** The events that leave a set error state as it is, by C6: everything but
    Retry, a success response and a completion. *)
Definition keeps_blocked (ev : Event) : bool :=
  match ev with
  | User ClickRetry => false
  | Response r => negb (ok r)
  | Finish _ => false
  | _ => true
  end.

End ChatView.

Module Scenarios.
Import Js Agent.

(** Both keys are set. *)
Definition both_keys : gmap string string :=
  {[ "GOOGLE_API_KEY" := "g-key"; "SERPAPI_API_KEY" := "s-key" ]}.

Definition fully_configured : GoogleRoute.Collaborators :=
  {| GoogleRoute.process_env := both_keys;
     GoogleRoute.getGoogleAccessToken := Return (Some "ya29.token");
     GoogleRoute.constructor_failure := fun _ => None |}.

(** The token comes back as the empty string. *)
Definition empty_token : GoogleRoute.Collaborators :=
  {| GoogleRoute.process_env := both_keys;
     GoogleRoute.getGoogleAccessToken := Return (Some "");
     GoogleRoute.constructor_failure := fun _ => Some (new_Error "never built") |}.

(** The parser rejects the body, with a status of its own. *)
Definition bad_request_error : JsError :=
  {| message := Some "Unexpected end of JSON input"; status := Some 400 |}.

Definition unreadable_request : NextRequest := {| json := Throw bad_request_error |}.

(** [messages] is a string; [messages] holds a [null]. *)
Definition string_messages_request : NextRequest :=
  {| json := Return (JObj [("messages", JStr "hello")]) |}.

Definition null_entry_request : NextRequest :=
  {| json := Return (JObj [("messages", JArr [Examples.chat_message "user" "hi"; JNull])]) |}.

(** The stream the first Google route starts for [chat_request] when the
    user is signed in and only the model key is set. *)
Definition signed_in_stream : EventStream JSON :=
  logToolCallsInDevelopment
    (streamEvents
       (createReactAgent (GoogleRoute.llm Examples.MODEL "g-key")
          (Calculator
           :: GoogleRoute.google_tools "ya29.token" (GoogleRoute.llm Examples.MODEL "g-key"))
          Examples.TEMPLATE)
       Examples.chat_history).

(** A conversation, and how it goes on. *)
Definition opening : list JSON := [Examples.chat_message "user" "What is 2 + 2?"].

Definition continuation : list JSON :=
  [Examples.chat_message "system" "calculator: 4"; Examples.chat_message "assistant" "4"].

(** A window that failed before any message was listed. *)
Definition stuck : ChatWindow.State :=
  {| ChatWindow.hasError := Some (new_Error "Failed to fetch");
     ChatWindow.chat_status := ChatWindow.failed;
     ChatWindow.chat_input := "hello";
     ChatWindow.chat_messages := [];
     ChatWindow.location_href := "/" |}.

(** A body that is the JSON value [null], under a 502. *)
Definition null_body_response : ChatWindow.FetchResponse :=
  {| ChatWindow.response_status := 502; ChatWindow.response_json := Return JNull |}.

(** What keeps a blocked window blocked. *)
Definition blocked_traffic : list ChatWindow.Event :=
  [ ChatWindow.User ChatWindow.PressEnter;
    ChatWindow.Response Examples.forbidden_response;
    ChatWindow.Hook ChatWindow.ready "again" [];
    ChatWindow.Failure (new_Error "Failed to fetch");
    ChatWindow.User ChatWindow.ClickSubmit ].

End Scenarios.

(* ===================================================================== *)
(** * Facts about the JavaScript helpers *)
(* ===================================================================== *)

Section StringFacts.
Import Js.

(** [starts_with] decides being a prefix. *)
Lemma starts_with_spec sub s :
  starts_with sub s = true <-> exists post, s = sub ++ post.
Proof.
  revert s. induction sub as [|a sub IH]; intros s; cbn.
  - split; [intros _; exists s; reflexivity | reflexivity].
  - destruct s as [|b s].
    + split; [discriminate | intros [post H]; discriminate].
    + rewrite andb_true_iff, Ascii.eqb_eq, IH. split.
      * intros [-> [post ->]]. exists post. reflexivity.
      * intros [post H]. inversion H. split; [reflexivity | exists post; reflexivity].
Qed.

(** [includes] decides occurrence as a substring. *)
Lemma includes_spec s sub : includes s sub = true <-> occurs_in sub s.
Proof.
  unfold occurs_in. induction s as [|a s IH].
  - cbn [includes]. rewrite orb_false_r, starts_with_spec. split.
    + intros [post H]. exists "", post. exact H.
    + intros [pre [post H]]. destruct pre; [exists post; exact H | discriminate].
  - cbn [includes]. rewrite orb_true_iff, starts_with_spec, IH. split.
    + intros [[post H] | [pre [post H]]].
      * exists "", post. exact H.
      * exists (String a pre), post. cbn. rewrite H. reflexivity.
    + intros [pre [post H]]. destruct pre as [|b pre].
      * left. exists post. exact H.
      * right. inversion H. exists pre, post. reflexivity.
Qed.

Lemma includes_false s sub : includes s sub = false <-> ~ occurs_in sub s.
Proof. rewrite <- includes_spec. destruct (includes s sub); split; congruence. Qed.

(** A later member of the same name hides the earlier ones. *)
Lemma own_property_last {V : Type} k (v : V) members :
  own_property k (members ++ [(k, v)])%list = Some v.
Proof.
  induction members as [|[k' v'] members IH]; cbn.
  - rewrite String.eqb_refl. reflexivity.
  - rewrite IH. reflexivity.
Qed.

End StringFacts.

Section EffFacts.
Import Js.

(** The laws of the effect monad that the handlers' proofs use. *)
Lemma await_Return_bind {A B : Type} (a : A) (f : A -> Eff B) :
  (await (Return a) ≫= f) = f a.
Proof. unfold mbind, Eff_bind. cbn. destruct (f a); reflexivity. Qed.

Lemma await_Throw_bind {A B : Type} (e : JsError) (f : A -> Eff B) :
  (await (Throw e) ≫= f) = {| console_output := []; outcome := Throw e |}.
Proof. reflexivity. Qed.

Lemma try_catch_returned {A : Type} (body : Eff A) (a : A) handler :
  outcome body = Return a -> try_catch body handler = body.
Proof. intros H. unfold try_catch. rewrite H. reflexivity. Qed.

Lemma bind_returned {A B : Type} (m : Eff A) (a : A) (f : A -> Eff B) :
  outcome m = Return a ->
  (m ≫= f) = {| console_output := console_output m ++ console_output (f a);
               outcome := outcome (f a) |}.
Proof. intros H. unfold mbind, Eff_bind. rewrite H. reflexivity. Qed.

End EffFacts.

(* ===================================================================== *)
(** * The history filter *)
(* ===================================================================== *)

Section HistoryFacts.
Import Js Agent.
Context {LangChainMessage : Type}.
Variable convert : JSON -> LangChainMessage.

(** The filter callback throws on [null] only, and otherwise computes
    [has_chat_role]. *)
Lemma chat_role_not_null m :
  m <> JNull -> chat_role m = Return (has_chat_role m).
Proof. destruct m; intros H; try reflexivity. congruence. Qed.

Lemma chat_role_returns m b :
  chat_role m = Return b -> m <> JNull /\ b = has_chat_role m.
Proof.
  destruct m; cbn; intros H; inversion H; split; congruence.
Qed.

(** On an array without [null] entries the filter is [List.filter]. *)
Lemma filter_array_total items :
  Forall (fun m => m <> JNull) items ->
  filter_array chat_role items = Return (List.filter has_chat_role items).
Proof.
  induction 1 as [|m items Hm _ IH]; [reflexivity|].
  cbn [filter_array List.filter]. rewrite (chat_role_not_null m Hm). cbn.
  rewrite IH. cbn. destruct (has_chat_role m); reflexivity.
Qed.

(** Conversely, the filter returns only on such arrays. *)
Lemma filter_array_returns items kept :
  filter_array chat_role items = Return kept ->
  Forall (fun m => m <> JNull) items /\ kept = List.filter has_chat_role items.
Proof.
  revert kept. induction items as [|m items IH]; intros kept H.
  - inversion H. split; [constructor|reflexivity].
  - cbn [filter_array] in H.
    destruct (chat_role m) as [b|e] eqn:Hm; [|discriminate].
    apply chat_role_returns in Hm as [Hnn ->]. cbn in H.
    destruct (filter_array chat_role items) as [kept'|e] eqn:Hrest; [|discriminate].
    destruct (IH kept' eq_refl) as [Hall ->]. cbn in H. inversion H.
    split; [constructor; assumption|]. cbn. reflexivity.
Qed.

(** [List.filter has_chat_role] is the one list that [replayed] allows. *)
Lemma filter_replayed items : replayed items (List.filter has_chat_role items).
Proof.
  induction items as [|m items IH]; cbn; [constructor|].
  destruct (has_chat_role m) eqn:Hm; constructor; assumption.
Qed.

Lemma replayed_unique items kept :
  replayed items kept -> kept = List.filter has_chat_role items.
Proof.
  induction 1 as [|m all kept Hm _ IH|m all kept Hm _ IH]; cbn; try rewrite Hm; congruence.
Qed.

(** When a history comes back, it is the converted filter of the message
    array of the body (the empty array if the body has none). *)
Lemma history_returns body h :
  history convert body = Return h ->
  exists v items,
    get_property body "messages" = Return v /\ nullish_or v (JArr []) = JArr items /\
    Forall (fun m => m <> JNull) items /\
    h = List.map convert (List.filter has_chat_role items).
Proof.
  unfold history. destruct (get_property body "messages") as [v|e] eqn:Hv; [|discriminate].
  cbn. destruct (nullish_or v (JArr [])) as [| | | |items|] eqn:Hn; try discriminate.
  destruct (filter_array chat_role items) as [kept|e] eqn:Hk; [|discriminate].
  cbn. intros H; inversion H. apply filter_array_returns in Hk as [Hall ->].
  exists v, items. auto.
Qed.

Lemma history_total body v items :
  get_property body "messages" = Return v -> nullish_or v (JArr []) = JArr items ->
  Forall (fun m => m <> JNull) items ->
  history convert body = Return (List.map convert (List.filter has_chat_role items)).
Proof.
  intros Hv Hn Hall. unfold history. rewrite Hv. cbn. rewrite Hn.
  rewrite (filter_array_total items Hall). reflexivity.
Qed.

End HistoryFacts.

(* ===================================================================== *)
(** * The Google-enabled routes *)
(* ===================================================================== *)

Section GoogleFacts.
Import Js Agent GoogleRoute.
Context {LangChainMessage : Type}.
Variable convert : JSON -> LangChainMessage.
Variables TEMPLATE MODEL : string.

Abbreviation provision := (provision (LangChainMessage:=LangChainMessage) TEMPLATE).
Abbreviation POST := (POST convert TEMPLATE MODEL).

(** The basic tools, by whether the search key is usable. *)
Lemma basicTools_with_search w key :
  truthy_value (process_env w !! "SERPAPI_API_KEY") = Some key ->
  basicTools w = {| console_output := []; outcome := Return [Calculator; SerpAPI key] |}.
Proof. intros H. unfold basicTools. rewrite H. reflexivity. Qed.

Lemma basicTools_without_search w :
  truthy_value (process_env w !! "SERPAPI_API_KEY") = None ->
  basicTools w = {| console_output := [search_warning]; outcome := Return [Calculator] |}.
Proof. intros H. unfold basicTools. rewrite H. reflexivity. Qed.

Lemma basicTools_returns w :
  exists tools, outcome (basicTools w) = Return (Calculator :: tools).
Proof.
  unfold basicTools.
  destruct (truthy_value (process_env w !! "SERPAPI_API_KEY")); eexists; reflexivity.
Qed.

(** If the construction of the Google tools returns, it returns all four. *)
Lemma googleTools_returns w token llm google :
  googleTools w token llm = Return google ->
  google = google_tools token llm.
Proof.
  unfold googleTools, new. intros H.
  repeat match type of H with context [constructor_failure w ?t] =>
           destruct (constructor_failure w t); cbn in H; [discriminate|]
         end.
  inversion H; reflexivity.
Qed.

(** The four ways through [provision]: no usable token, a rejected token
    request, a throwing constructor, and the full tool set. *)
Lemma provision_no_token w llm basic h tok :
  getGoogleAccessToken w = Return tok -> truthy_value tok = None ->
  provision w llm basic h =
    {| console_output :=
         [no_token_warning];
       outcome := Return (respond llm basic (TEMPLATE ++ NO_TOKEN_NOTE) h) |}.
Proof. intros Ht Hv. unfold GoogleRoute.provision. rewrite Ht. cbn. rewrite Hv. reflexivity. Qed.

Lemma provision_token_rejected w llm basic h e :
  getGoogleAccessToken w = Throw e ->
  provision w llm basic h =
    {| console_output := fallback_lines e;
       outcome := Return (respond llm basic (TEMPLATE ++ ERROR_NOTE e) h) |}.
Proof. intros Ht. unfold GoogleRoute.provision. rewrite Ht. reflexivity. Qed.

Lemma provision_tools_rejected w llm basic h tok token e :
  getGoogleAccessToken w = Return tok -> truthy_value tok = Some token ->
  googleTools w token llm = Throw e ->
  provision w llm basic h =
    {| console_output := retrieved_line :: fallback_lines e;
       outcome := Return (respond llm basic (TEMPLATE ++ ERROR_NOTE e) h) |}.
Proof.
  intros Ht Hv Hg. unfold GoogleRoute.provision. rewrite Ht. cbn. rewrite Hv. cbn.
  rewrite Hg. reflexivity.
Qed.

Lemma provision_full w llm basic h tok token google :
  getGoogleAccessToken w = Return tok -> truthy_value tok = Some token ->
  googleTools w token llm = Return google ->
  provision w llm basic h =
    {| console_output :=
         [retrieved_line; created_line];
       outcome := Return (respond llm (basic ++ google)%list TEMPLATE h) |}.
Proof.
  intros Ht Hv Hg. unfold GoogleRoute.provision. rewrite Ht. cbn. rewrite Hv. cbn.
  rewrite Hg. reflexivity.
Qed.

(** In every case [provision] returns a stream response. *)
Lemma provision_returns w llm basic h :
  exists tools template,
    outcome (provision w llm basic h) = Return (respond llm tools template h) /\
    (tools = basic \/
     exists token, tools = (basic ++ google_tools token llm)%list).
Proof.
  destruct (getGoogleAccessToken w) as [tok|e] eqn:Ht.
  - destruct (truthy_value tok) as [token|] eqn:Hv.
    + destruct (googleTools w token llm) as [google|e] eqn:Hg.
      * rewrite (provision_full _ _ _ _ _ _ _ Ht Hv Hg).
        apply googleTools_returns in Hg as ->. eauto 6.
      * rewrite (provision_tools_rejected _ _ _ _ _ _ _ Ht Hv Hg). eauto.
    + rewrite (provision_no_token _ _ _ _ _ Ht Hv). eauto.
  - rewrite (provision_token_rejected _ _ _ _ _ Ht). eauto.
Qed.

(** [POST], by what the request and the environment are. *)
Lemma POST_configured req w body h key :
  json req = Return body -> history convert body = Return h ->
  truthy_value (process_env w !! "GOOGLE_API_KEY") = Some key ->
  POST req w = (tools ← basicTools w; provision w (llm MODEL key) tools h).
Proof.
  intros Hb Hh Hk. unfold GoogleRoute.POST.
  rewrite Hb, await_Return_bind, Hh, await_Return_bind, Hk. 
  destruct (basicTools_returns w) as [ts Hts].
  destruct (provision_returns w (llm MODEL key) (Calculator :: ts) h) as (tools & tmpl & Hp & _).
  apply try_catch_returned with (a := respond (llm MODEL key) tools tmpl h).
  rewrite (bind_returned _ _ _ Hts). exact Hp.
Qed.

Lemma POST_unconfigured req w body h :
  json req = Return body -> history convert body = Return h ->
  truthy_value (process_env w !! "GOOGLE_API_KEY") = None ->
  POST req w =
    {| console_output :=
         [missing_key_line];
       outcome :=
         Return (NextResponse_json
                   (Some "Server configuration error: Missing Gemini API key") 500) |}.
Proof.
  intros Hb Hh Hk. unfold GoogleRoute.POST.
  rewrite Hb, await_Return_bind, Hh, await_Return_bind, Hk. reflexivity.
Qed.

Lemma POST_unreadable_body req w e :
  json req = Throw e -> POST req w = catch_all e.
Proof. intros Hb. unfold GoogleRoute.POST. rewrite Hb. reflexivity. Qed.

Lemma POST_unusable_body req w body e :
  json req = Return body -> history convert body = Throw e -> POST req w = catch_all e.
Proof.
  intros Hb Hh. unfold GoogleRoute.POST. rewrite Hb, await_Return_bind, Hh. reflexivity.
Qed.

Lemma POST_configured_outcome req w body h key :
  json req = Return body -> history convert body = Return h ->
  truthy_value (process_env w !! "GOOGLE_API_KEY") = Some key ->
  exists basic tools template,
    outcome (basicTools w) = Return (Calculator :: basic) /\
    outcome (provision w (llm MODEL key) (Calculator :: basic) h)
      = Return (respond (llm MODEL key) tools template h) /\
    (tools = Calculator :: basic \/
     exists token, tools = (Calculator :: basic ++ google_tools token (llm MODEL key))%list) /\
    outcome (POST req w) = Return (respond (llm MODEL key) tools template h) /\
    console_output (POST req w)
      = (console_output (basicTools w)
         ++ console_output (provision w (llm MODEL key) (Calculator :: basic) h))%list.
Proof.
  intros Hb Hh Hk. rewrite (POST_configured _ _ _ _ _ Hb Hh Hk).
  destruct (basicTools_returns w) as [basic Hbasic].
  destruct (provision_returns w (llm MODEL key) (Calculator :: basic) h)
    as (tools & template & Hp & Htools).
  exists basic, tools, template. rewrite (bind_returned _ _ _ Hbasic). cbn.
  repeat split; assumption.
Qed.

(** A stream comes only from a body that was read into a history. *)
Lemma POST_stream_history req w stream :
  outcome (POST req w) = Return (toDataStreamResponse stream) ->
  exists body, json req = Return body /\ history convert body = Return (messages stream).
Proof.
  intros H. destruct (json req) as [body|e] eqn:Hb.
  - destruct (history convert body) as [h|e] eqn:Hh.
    + destruct (truthy_value (process_env w !! "GOOGLE_API_KEY")) as [key|] eqn:Hk.
      * destruct (POST_configured_outcome _ _ _ _ _ Hb Hh Hk)
          as (basic & tools & template & _ & _ & _ & Hout & _).
        rewrite Hout in H. inversion H. exists body. split; [reflexivity|exact Hh].
      * rewrite (POST_unconfigured _ _ _ _ Hb Hh Hk) in H. discriminate.
    + rewrite (POST_unusable_body _ _ _ _ Hb Hh) in H. discriminate.
  - rewrite (POST_unreadable_body _ _ _ Hb) in H. discriminate.
Qed.

(** C1.  Whatever the token acquisition and the Google tool constructors do,
    provisioning never throws and ends in the invocation of an agent: it
    returns the data stream response (status 200) of a stream started on the
    request's history from an agent on the model client, whose tools are the
    basic ones (the calculator first) or the basic ones followed by the four
    Google tools; and a request that reached provisioning is answered with
    that stream. *)
Theorem provisioning_always_yields_tools (w : Collaborators) (key : string)
    (h : list LangChainMessage) :
  exists basic stream,
    outcome (basicTools w) = Return (Calculator :: basic) /\
    outcome (provision w (llm MODEL key) (Calculator :: basic) h)
      = Return (toDataStreamResponse stream) /\
    http_status (toDataStreamResponse stream) = 200 /\
    agent_llm (agent stream) = llm MODEL key /\
    messages stream = h /\
    Calculator ∈ tools (agent stream) /\
    (tools (agent stream) = Calculator :: basic \/
     exists token,
       tools (agent stream)
         = (Calculator :: basic ++ google_tools token (llm MODEL key))%list) /\
    forall req body,
      json req = Return body -> history convert body = Return h ->
      truthy_value (process_env w !! "GOOGLE_API_KEY") = Some key ->
      outcome (POST req w) = Return (toDataStreamResponse stream).
Proof.
  destruct (basicTools_returns w) as [basic Hbasic].
  destruct (provision_returns w (llm MODEL key) (Calculator :: basic) h)
    as (tools & template & Hp & Htools).
  exists basic,
    (logToolCallsInDevelopment
       (streamEvents (createReactAgent (llm MODEL key) tools template) h)).
  split; [exact Hbasic|]. split; [exact Hp|].
  split; [reflexivity|]. split; [reflexivity|]. split; [reflexivity|].
  cbn [agent logToolCallsInDevelopment streamEvents Agent.tools].
  split.
  { destruct Htools as [->|[token ->]]; apply list_elem_of_here. }
  split; [exact Htools|].
  intros req body Hb Hh Hk. rewrite (POST_configured _ _ _ _ _ Hb Hh Hk).
  rewrite (bind_returned _ _ _ Hbasic). exact Hp.
Qed.

(** C2.  Without a usable [GOOGLE_API_KEY] (unset, or empty) no request is
    answered with a stream, and a request whose body yields a history is
    answered with status 500 and the error
    "Server configuration error: Missing Gemini API key", after one
    [console.error] line and before any collaborator is consulted. *)
Theorem missing_model_key_fails_fast (req : NextRequest) (w : Collaborators) :
  truthy_value (process_env w !! "GOOGLE_API_KEY") = None ->
  (forall stream, outcome (POST req w) <> Return (toDataStreamResponse stream)) /\
  (forall body h,
     json req = Return body -> history convert body = Return h ->
     POST req w =
       {| console_output := [missing_key_line];
          outcome :=
            Return (NextResponse_json
                      (Some "Server configuration error: Missing Gemini API key") 500) |}).
Proof.
  intros Hk. split.
  - intros stream H. destruct (POST_stream_history _ _ _ H) as (body & Hb & Hh).
    rewrite (POST_unconfigured _ _ _ _ Hb Hh Hk) in H. discriminate.
  - intros body h Hb Hh. exact (POST_unconfigured _ _ _ _ Hb Hh Hk).
Qed.

(** The hint is one of three, chosen by what occurs in the message. *)
Lemma errorContext_cases e :
  errorContext e = SCOPE_HINT \/ errorContext e = TOKEN_HINT \/ errorContext e = GENERIC_HINT.
Proof.
  unfold errorContext.
  destruct (from_option _ false (message e)); [left; reflexivity|].
  destruct (from_option _ false (message e)); [right; left|right; right]; reflexivity.
Qed.

Lemma errorContext_spec e :
  (forall m, message e = Some m ->
     occurs_in "insufficient authentication scopes" m -> errorContext e = SCOPE_HINT) /\
  (forall m, message e = Some m ->
     ~ occurs_in "insufficient authentication scopes" m -> occurs_in "token" m ->
     errorContext e = TOKEN_HINT) /\
  ((forall m, message e = Some m ->
      ~ occurs_in "insufficient authentication scopes" m /\ ~ occurs_in "token" m) ->
   errorContext e = GENERIC_HINT).
Proof.
  unfold errorContext. destruct (message e) as [m|]; cbn.
  - split; [|split].
    + intros ? [= <-] Hs. apply includes_spec in Hs. rewrite Hs. reflexivity.
    + intros ? [= <-] Hs Ht. apply includes_false in Hs. apply includes_spec in Ht.
      rewrite Hs, Ht. reflexivity.
    + intros H. destruct (H m eq_refl) as [Hs Ht].
      apply includes_false in Hs, Ht. rewrite Hs, Ht. reflexivity.
  - split; [discriminate|]. split; [discriminate|reflexivity].
Qed.

(** Whatever the hint, the note names the integrations and the remedy. *)
Lemma ERROR_NOTE_wording e :
  includes (ERROR_NOTE e) "Google integrations (Gmail, Calendar) are currently unavailable" = true /\
  includes (ERROR_NOTE e) "Please try logging out and back in with Google to fix this issue." = true.
Proof.
  unfold ERROR_NOTE.
  destruct (errorContext_cases e) as [-> | [-> | ->]]; split; vm_compute; reflexivity.
Qed.

Lemma POST_degraded req w body h key e :
  json req = Return body -> history convert body = Return h ->
  truthy_value (process_env w !! "GOOGLE_API_KEY") = Some key ->
  extended_path_raises w (llm MODEL key) e ->
  exists basic,
    outcome (basicTools w) = Return basic /\
    outcome (POST req w)
      = Return (respond (llm MODEL key) basic (TEMPLATE ++ ERROR_NOTE e) h).
Proof.
  intros Hb Hh Hk Hraise. rewrite (POST_configured _ _ _ _ _ Hb Hh Hk).
  destruct (basicTools_returns w) as [basic Hbasic].
  exists (Calculator :: basic). split; [assumption|].
  rewrite (bind_returned _ _ _ Hbasic). cbn.
  destruct Hraise as [e Ht | tok token e Ht Hv Hg].
  - rewrite (provision_token_rejected _ _ _ _ _ Ht). reflexivity.
  - rewrite (provision_tools_rejected _ _ _ _ _ _ _ Ht Hv Hg). reflexivity.
Qed.

(** C3.  When the extended-capability path raises [e], the request is still
    answered with a data stream (status 200) from an agent that has the basic
    tools only; its template is the system template followed by a note that
    names Gmail and Calendar as unavailable, carries one of exactly three
    hints chosen from the error message (insufficient scopes first, then
    token, then the generic one) and asks to log out and back in. *)
Theorem google_failure_degrades_with_hint (req : NextRequest) (w : Collaborators)
    (body : JSON) (h : list LangChainMessage) (key : string) (e : JsError) :
  json req = Return body -> history convert body = Return h ->
  truthy_value (process_env w !! "GOOGLE_API_KEY") = Some key ->
  extended_path_raises w (llm MODEL key) e ->
  exists basic stream,
    outcome (basicTools w) = Return basic /\
    outcome (POST req w) = Return (toDataStreamResponse stream) /\
    http_status (toDataStreamResponse stream) = 200 /\
    tools (agent stream) = basic /\
    messages stream = h /\
    messageModifier (agent stream) = TEMPLATE ++ ERROR_NOTE e /\
    ERROR_NOTE e =
      newline ++ newline ++
      "NOTE: Google integrations (Gmail, Calendar) are currently unavailable: " ++
      errorContext e ++
      ". Please try logging out and back in with Google to fix this issue." /\
    (forall m, message e = Some m ->
       occurs_in "insufficient authentication scopes" m -> errorContext e = SCOPE_HINT) /\
    (forall m, message e = Some m ->
       ~ occurs_in "insufficient authentication scopes" m -> occurs_in "token" m ->
       errorContext e = TOKEN_HINT) /\
    ((forall m, message e = Some m ->
        ~ occurs_in "insufficient authentication scopes" m /\ ~ occurs_in "token" m) ->
     errorContext e = GENERIC_HINT) /\
    includes (ERROR_NOTE e)
      "Google integrations (Gmail, Calendar) are currently unavailable" = true /\
    includes (ERROR_NOTE e)
      "Please try logging out and back in with Google to fix this issue." = true.
Proof.
  intros Hb Hh Hk Hraise.
  destruct (POST_degraded _ _ _ _ _ _ Hb Hh Hk Hraise) as (basic & Hbasic & Hout).
  exists basic, (logToolCallsInDevelopment
                   (streamEvents (createReactAgent (llm MODEL key) basic
                                    (TEMPLATE ++ ERROR_NOTE e)) h)).
  repeat (split; [first [assumption | reflexivity]|]).
  destruct (errorContext_spec e) as (Hscope & Htoken & Hgeneric).
  repeat (split; [assumption|]). apply ERROR_NOTE_wording.
Qed.

(** C9.  With the model key set and no usable [SERPAPI_API_KEY], a request
    whose body yields a history is answered with a data stream (status 200);
    the warning is on the console; the agent has the calculator and no search
    tool; and when a token comes back and the Google tools are built, the
    agent has the calculator and the four Google tools and its template is the
    system template, unchanged. *)
Theorem missing_search_key_only_drops_search (req : NextRequest) (w : Collaborators)
    (body : JSON) (h : list LangChainMessage) (key : string) :
  json req = Return body -> history convert body = Return h ->
  truthy_value (process_env w !! "GOOGLE_API_KEY") = Some key ->
  truthy_value (process_env w !! "SERPAPI_API_KEY") = None ->
  exists stream,
    outcome (POST req w) = Return (toDataStreamResponse stream) /\
    http_status (toDataStreamResponse stream) = 200 /\
    messages stream = h /\
    search_warning ∈ console_output (POST req w) /\
    Calculator ∈ tools (agent stream) /\
    (forall k, SerpAPI k ∉ tools (agent stream)) /\
    (forall tok token,
       getGoogleAccessToken w = Return tok -> truthy_value tok = Some token ->
       (forall t, constructor_failure w t = None) ->
       tools (agent stream) = Calculator :: google_tools token (llm MODEL key) /\
       messageModifier (agent stream) = TEMPLATE).
Proof.
  intros Hb Hh Hk Hs.
  destruct (POST_configured_outcome _ _ _ _ _ Hb Hh Hk)
    as (basic & tools & template & Hbasic & Hp & Htools & Hout & Hlog).
  rewrite (basicTools_without_search _ Hs) in Hbasic, Hlog. cbn in Hbasic, Hlog.
  inversion Hbasic; subst basic.
  exists (logToolCallsInDevelopment
            (streamEvents (createReactAgent (llm MODEL key) tools template) h)).
  split; [exact Hout|]. split; [reflexivity|]. split; [reflexivity|].
  split; [rewrite Hlog; apply list_elem_of_here|]. cbn.
  split; [destruct Htools as [->|[token ->]]; apply list_elem_of_here|].
  split.
  { intros k Hin. destruct Htools as [->|[token ->]]; cbn in Hin;
      repeat (apply elem_of_cons in Hin as [Hin|Hin]; [discriminate|]);
      apply elem_of_nil in Hin; exact Hin. }
  intros tok token Ht Hv Hnone.
  assert (Hg : googleTools w token (llm MODEL key) = Return (google_tools token (llm MODEL key))).
  { unfold googleTools, new. rewrite !Hnone. reflexivity. }
  rewrite (provision_full _ _ _ _ _ _ _ Ht Hv Hg) in Hp. cbn in Hp.
  inversion Hp. split; reflexivity.
Qed.

End GoogleFacts.

(* ===================================================================== *)
(** * What the request body may be *)
(* ===================================================================== *)

Section RequestBodyFacts.
Import Js Agent.
Context {LangChainMessage : Type}.
Variable convert : JSON -> LangChainMessage.
Variables TEMPLATE MODEL : string.

(** The plain route streams whenever the body yields a history, and only then. *)
Lemma plain_POST_returns req body h :
  json req = Return body -> history convert body = Return h ->
  exists stream,
    PlainRoute.POST convert req
      = {| console_output := []; outcome := Return (toDataStreamResponse stream) |} /\
    messages stream = h /\ tools (agent stream) = [] /\
    messageModifier (agent stream) = PlainRoute.AGENT_SYSTEM_TEMPLATE.
Proof.
  intros Hb Hh. unfold PlainRoute.POST.
  rewrite Hb, await_Return_bind, Hh, await_Return_bind.
  eexists. split; [reflexivity|]. repeat split.
Qed.

Lemma plain_POST_stream_history req stream :
  outcome (PlainRoute.POST convert req) = Return (toDataStreamResponse stream) ->
  exists body, json req = Return body /\ history convert body = Return (messages stream).
Proof.
  intros H. unfold PlainRoute.POST in H. destruct (json req) as [body|e] eqn:Hb.
  - rewrite await_Return_bind in H.
    destruct (history convert body) as [h|e] eqn:Hh.
    + rewrite await_Return_bind in H. inversion H. exists body. split; [reflexivity|exact Hh].
    + discriminate.
  - discriminate.
Qed.

(** C4.  Whenever either route hands a history to the agent, it is the
    converted list of exactly those entries of the body's message array whose
    role is 'user' or 'assistant', in their original order, so that no entry
    with another role is replayed; and a body with a message array (or none)
    that holds no [null] entry does reach the agent, on the Google routes once
    the model key is set. *)
Theorem agent_history_is_chat_roles_in_order :
  (forall req w stream,
     outcome (PlainRoute.POST convert req) = Return (toDataStreamResponse stream) \/
     outcome (GoogleRoute.POST convert TEMPLATE MODEL req w)
       = Return (toDataStreamResponse stream) ->
     exists body v items kept,
       json req = Return body /\
       get_property body "messages" = Return v /\ nullish_or v (JArr []) = JArr items /\
       replayed items kept /\
       kept = List.filter has_chat_role items /\
       messages stream = List.map convert kept /\
       (forall m, m ∈ kept -> m ∈ items /\ has_chat_role m = true) /\
       (forall m, m ∈ items -> has_chat_role m = true -> m ∈ kept)) /\
  (forall req body v items,
     json req = Return body ->
     get_property body "messages" = Return v -> nullish_or v (JArr []) = JArr items ->
     Forall (fun m => m <> JNull) items ->
     (exists stream,
        outcome (PlainRoute.POST convert req) = Return (toDataStreamResponse stream) /\
        messages stream = List.map convert (List.filter has_chat_role items)) /\
     (forall w key,
        truthy_value (GoogleRoute.process_env w !! "GOOGLE_API_KEY") = Some key ->
        exists stream,
          outcome (GoogleRoute.POST convert TEMPLATE MODEL req w)
            = Return (toDataStreamResponse stream) /\
          messages stream = List.map convert (List.filter has_chat_role items))).
Proof.
  split.
  - intros req w stream H.
    assert (exists body, json req = Return body /\
                         history convert body = Return (messages stream))
      as (body & Hb & Hh).
    { destruct H as [H|H];
        [exact (plain_POST_stream_history _ _ H) | exact (POST_stream_history _ _ _ _ _ _ H)]. }
    destruct (history_returns _ _ _ Hh) as (v & items & Hv & Hn & _ & Hm).
    exists body, v, items, (List.filter has_chat_role items).
    repeat (split; [first [assumption | reflexivity | apply filter_replayed]|]).
    split.
    + intros m Hin. apply list_elem_of_In, filter_In in Hin as [Hin Hrole].
      split; [apply list_elem_of_In; exact Hin | exact Hrole].
    + intros m Hin Hrole. apply list_elem_of_In, filter_In.
      split; [apply list_elem_of_In; exact Hin | exact Hrole].
  - intros req body v items Hb Hv Hn Hall.
    pose proof (history_total convert _ _ _ Hv Hn Hall) as Hh. split.
    + destruct (plain_POST_returns _ _ _ Hb Hh) as (stream & Hpost & Hm & _).
      exists stream. rewrite Hpost. split; [reflexivity | exact Hm].
    + intros w key Hk.
      destruct (POST_configured_outcome convert TEMPLATE MODEL _ _ _ _ _ Hb Hh Hk)
        as (basic & tools & template & _ & _ & _ & Hout & _).
      eexists. split; [exact Hout | reflexivity].
Qed.

(** C10, as amended.  A body that is a JSON value other than [null] and has no
    [messages] member, or a [null] one, yields the empty history: the plain
    route streams from it, and the Google routes answer it as they answer
    [{ "messages": [] }], with a stream of empty history once the model key
    is set. *)
Theorem missing_messages_is_an_empty_history (req : NextRequest) (body : JSON) :
  json req = Return body ->
  get_property body "messages" = Return None \/
  get_property body "messages" = Return (Some JNull) ->
  history convert body = Return [] /\
  (exists stream,
     PlainRoute.POST convert req
       = {| console_output := []; outcome := Return (toDataStreamResponse stream) |} /\
     messages stream = []) /\
  (forall w,
     GoogleRoute.POST convert TEMPLATE MODEL req w
       = GoogleRoute.POST convert TEMPLATE MODEL
           {| json := Return (JObj [("messages", JArr [])]) |} w) /\
  (forall w key,
     truthy_value (GoogleRoute.process_env w !! "GOOGLE_API_KEY") = Some key ->
     exists stream,
       outcome (GoogleRoute.POST convert TEMPLATE MODEL req w)
         = Return (toDataStreamResponse stream) /\
       messages stream = []).
Proof.
  intros Hb Hmissing.
  assert (Hh : history convert body = Return []).
  { unfold history. destruct Hmissing as [-> | ->]; reflexivity. }
  split; [exact Hh|]. split.
  { destruct (plain_POST_returns _ _ _ Hb Hh) as (stream & Hpost & Hm & _). eauto. }
  split.
  - intros w. unfold GoogleRoute.POST. rewrite Hb, !await_Return_bind, Hh. reflexivity.
  - intros w key Hk.
    destruct (POST_configured_outcome convert TEMPLATE MODEL _ _ _ _ _ Hb Hh Hk)
      as (basic & tools & template & _ & _ & _ & Hout & _).
    eexists. split; [exact Hout | reflexivity].
Qed.

End RequestBodyFacts.

(* ===================================================================== *)
(** * The chat window *)
(* ===================================================================== *)

Section ChatWindowFacts.
Import Js ChatWindow.
Variable placeholder_prop : option string.

(** What [response_error] is, by how the body parses. *)
Lemma truthy_nonempty_string msg : msg <> "" -> truthy (Some (JStr msg)) = true.
Proof.
  intros H. cbn. unfold truthy_string. destruct (String.eqb_spec msg ""); [contradiction|reflexivity].
Qed.

Lemma response_error_of_message r data msg :
  response_json r = Return data ->
  get_property data "error" = Return (Some (JStr msg)) -> msg <> "" ->
  response_error r = new_Error msg.
Proof.
  intros Hd He Hne. unfold response_error, error_of_data. rewrite Hd. cbn -[truthy].
  rewrite He. cbn -[truthy]. rewrite (truthy_nonempty_string _ Hne). reflexivity.
Qed.



Lemma response_error_null r :
  response_json r = Return JNull ->
  response_error r = new_Error ("Request failed with status " ++ decimal (response_status r)).
Proof. intros Hd. unfold response_error. rewrite Hd. reflexivity. Qed.


(** A disabled form delivers no submission. *)
Lemma gesture_blocked g s :
  is_Some (hasError s) -> g <> ClickRetry -> gesture placeholder_prop g s = (s, []).
Proof.
  intros Hb Hg. unfold gesture, input_disabled, submit_disabled, ChatInput_props. cbn.
  rewrite (bool_decide_eq_true_2 _ Hb).
  destruct g; [reflexivity| |contradiction].
  rewrite orb_true_r. reflexivity.
Qed.





(** A request is in flight exactly in the statuses [submitted] and
    [streaming]. *)
Lemma in_flight_fold trace b st :
  b = in_flight_status st ->
  fold_left in_flight_step trace b = in_flight_status (fold_left status_step trace st).
Proof.
  revert b st. induction trace as [|ev trace IH]; intros b st Hinv; [exact Hinv|].
  cbn [fold_left]. apply IH. subst b. destruct ev, st; reflexivity.
Qed.

Lemma in_flight_status_after trace :
  in_flight trace = in_flight_status (status_after trace).
Proof. apply in_flight_fold. reflexivity. Qed.

(** C8, as amended.  The loading predicate is true exactly when [chat.status]
    is 'streaming'.  Along any life of requests it is true only while a
    request is in flight, and the part of a request's flight during which it
    is false is the one from submission to the start of the response stream
    (status 'submitted'). *)
Theorem loading_is_exactly_streaming (s : State) :
  (isChatLoading s = true <-> chat_status s = streaming) /\
  (forall trace,
     chat_status s = status_after trace ->
     (isChatLoading s = true -> in_flight trace = true) /\
     (in_flight trace = true /\ isChatLoading s = false <-> chat_status s = submitted)).
Proof.
  split.
  - unfold isChatLoading. destruct (chat_status s); split; congruence.
  - intros trace Hs. rewrite in_flight_status_after, <- Hs. unfold isChatLoading.
    destruct (chat_status s); cbn; intuition congruence.
Qed.

End ChatWindowFacts.

(* ===================================================================== *)
(** * The statements at concrete inputs *)
(* ===================================================================== *)

Section Instances.
Import Js Agent Examples.

(** Neither system template carries a note of its own. *)
Lemma system_templates_carry_no_note :
  includes GoogleRoute.SIMPLE_AGENT_SYSTEM_TEMPLATE "NOTE: Google integrations" = false /\
  includes GoogleRoute.ASSISTANT0_AGENT_SYSTEM_TEMPLATE "NOTE: Google integrations" = false.
Proof. split; vm_compute; reflexivity. Qed.

(** ** The credential outcomes, one by one *)

Example signed_out_gets_the_basic_tools :
  GoogleRoute.POST echo TEMPLATE MODEL chat_request signed_out =
    {| console_output := [GoogleRoute.search_warning; GoogleRoute.no_token_warning];
       outcome :=
         Return (GoogleRoute.respond (GoogleRoute.llm MODEL "g-key") [Calculator]
                   (TEMPLATE ++ GoogleRoute.NO_TOKEN_NOTE) chat_history) |}.
Proof. vm_compute. reflexivity. Qed.

Example expired_token_gets_the_token_hint :
  GoogleRoute.POST echo TEMPLATE MODEL chat_request expired =
    {| console_output := GoogleRoute.search_warning :: GoogleRoute.fallback_lines expired_error;
       outcome :=
         Return (GoogleRoute.respond (GoogleRoute.llm MODEL "g-key") [Calculator]
                   (TEMPLATE ++ GoogleRoute.ERROR_NOTE expired_error) chat_history) |} /\
  GoogleRoute.errorContext expired_error = GoogleRoute.TOKEN_HINT.
Proof. split; vm_compute; reflexivity. Qed.

Example throwing_constructor_keeps_the_search_tool :
  GoogleRoute.POST echo TEMPLATE MODEL chat_request calendar_down =
    {| console_output := GoogleRoute.retrieved_line :: GoogleRoute.fallback_lines calendar_error;
       outcome :=
         Return (GoogleRoute.respond (GoogleRoute.llm MODEL "g-key")
                   [Calculator; SerpAPI "s-key"]
                   (TEMPLATE ++ GoogleRoute.ERROR_NOTE calendar_error) chat_history) |} /\
  GoogleRoute.errorContext calendar_error = GoogleRoute.GENERIC_HINT.
Proof. split; vm_compute; reflexivity. Qed.

Example signed_in_gets_every_tool :
  outcome (GoogleRoute.POST echo TEMPLATE MODEL chat_request signed_in) =
    Return (GoogleRoute.respond (GoogleRoute.llm MODEL "g-key")
              (Calculator :: GoogleRoute.google_tools "ya29.token" (GoogleRoute.llm MODEL "g-key"))
              TEMPLATE chat_history).
Proof. vm_compute. reflexivity. Qed.

(** ** The theorems at concrete inputs *)

(** Insufficient scope at the identity provider: the request is still
    answered with the stream of an agent that has the calculator. *)
Lemma provisioning_survives_insufficient_scope :
  exists stream,
    outcome (GoogleRoute.POST echo TEMPLATE MODEL chat_request insufficient_scope)
      = Return (toDataStreamResponse stream) /\
    messages stream = chat_history /\
    Calculator ∈ tools (agent stream).
Proof.
  destruct (provisioning_always_yields_tools echo TEMPLATE MODEL insufficient_scope
              "g-key" chat_history)
    as (basic & stream & _ & _ & _ & _ & Hmessages & Hcalc & _ & Hpost).
  exists stream. split; [|split; [exact Hmessages | exact Hcalc]].
  apply (Hpost chat_request chat_body); vm_compute; reflexivity.
Defined.

(** No environment: the configuration error, and nothing else. *)
Lemma missing_model_key_answer :
  GoogleRoute.POST echo TEMPLATE MODEL chat_request unconfigured =
    {| console_output := [GoogleRoute.missing_key_line];
       outcome :=
         Return (NextResponse_json
                   (Some "Server configuration error: Missing Gemini API key") 500) |}.
Proof.
  assert (Hk : truthy_value (GoogleRoute.process_env unconfigured !! "GOOGLE_API_KEY") = None)
    by (vm_compute; reflexivity).
  apply (proj2 (missing_model_key_fails_fast echo TEMPLATE MODEL chat_request unconfigured Hk)
           chat_body chat_history); vm_compute; reflexivity.
Defined.

(** Insufficient scope: a stream with the scope hint in the template. *)
Lemma insufficient_scope_degrades :
  exists stream,
    outcome (GoogleRoute.POST echo TEMPLATE MODEL chat_request insufficient_scope)
      = Return (toDataStreamResponse stream) /\
    tools (agent stream) = [Calculator] /\
    messageModifier (agent stream) = TEMPLATE ++ GoogleRoute.ERROR_NOTE scope_error /\
    GoogleRoute.errorContext scope_error = GoogleRoute.SCOPE_HINT.
Proof.
  assert (Hb : json chat_request = Return chat_body) by reflexivity.
  assert (Hh : history echo chat_body = Return chat_history) by (vm_compute; reflexivity).
  assert (Hk : truthy_value (GoogleRoute.process_env insufficient_scope !! "GOOGLE_API_KEY")
               = Some "g-key") by (vm_compute; reflexivity).
  assert (Hr : GoogleRoute.extended_path_raises insufficient_scope
                 (GoogleRoute.llm MODEL "g-key") scope_error)
    by (apply GoogleRoute.acquisition_raises; reflexivity).
  destruct (google_failure_degrades_with_hint echo TEMPLATE MODEL chat_request
              insufficient_scope chat_body chat_history "g-key" scope_error Hb Hh Hk Hr)
    as (basic & stream & Hbasic & Hout & _ & Htools & _ & Htemplate & _ & Hhint & _).
  exists stream. split; [exact Hout|]. split.
  { rewrite Htools. vm_compute in Hbasic. inversion Hbasic. reflexivity. }
  split; [exact Htemplate|].
  apply (Hhint "Request had insufficient authentication scopes."); [reflexivity|].
  exists "Request had ", ".". reflexivity.
Defined.

(** Signed in, without a search key: the calculator, the four Google tools,
    and the template as it is. *)
Lemma signed_in_without_search :
  exists stream,
    outcome (GoogleRoute.POST echo TEMPLATE MODEL chat_request signed_in)
      = Return (toDataStreamResponse stream) /\
    GoogleRoute.search_warning
      ∈ console_output (GoogleRoute.POST echo TEMPLATE MODEL chat_request signed_in) /\
    tools (agent stream)
      = Calculator :: GoogleRoute.google_tools "ya29.token" (GoogleRoute.llm MODEL "g-key") /\
    messageModifier (agent stream) = TEMPLATE /\
    includes (messageModifier (agent stream)) "NOTE: Google integrations" = false.
Proof.
  assert (Hb : json chat_request = Return chat_body) by reflexivity.
  assert (Hh : history echo chat_body = Return chat_history) by (vm_compute; reflexivity).
  assert (Hk : truthy_value (GoogleRoute.process_env signed_in !! "GOOGLE_API_KEY")
               = Some "g-key") by (vm_compute; reflexivity).
  assert (Hs : truthy_value (GoogleRoute.process_env signed_in !! "SERPAPI_API_KEY") = None)
    by (vm_compute; reflexivity).
  destruct (missing_search_key_only_drops_search echo TEMPLATE MODEL chat_request signed_in
              chat_body chat_history "g-key" Hb Hh Hk Hs)
    as (stream & Hout & _ & _ & Hwarn & _ & _ & Hfull).
  exists stream. split; [exact Hout|]. split; [exact Hwarn|].
  destruct (Hfull (Some "ya29.token") "ya29.token") as [Htools Htemplate]; try reflexivity.
  split; [exact Htools|]. split; [exact Htemplate|].
  rewrite Htemplate. vm_compute. reflexivity.
Defined.

(** The system step of [chat_body] is not replayed by the plain route. *)
Lemma chat_history_drops_the_system_step :
  exists body v items kept,
    json chat_request = Return body /\
    get_property body "messages" = Return v /\ nullish_or v (JArr []) = JArr items /\
    replayed items kept /\
    kept = List.filter has_chat_role items /\
    messages plain_stream = List.map echo kept /\
    (forall m, m ∈ kept -> m ∈ items /\ has_chat_role m = true) /\
    (forall m, m ∈ items -> has_chat_role m = true -> m ∈ kept).
Proof.
  apply (proj1 (agent_history_is_chat_roles_in_order echo TEMPLATE MODEL)
           chat_request signed_in plain_stream).
  left. vm_compute. reflexivity.
Defined.

(** A body without messages is an empty conversation. *)
Lemma bare_request_has_empty_history :
  history echo (JObj [("id", JStr "x")]) = Return [] /\
  exists stream,
    outcome (GoogleRoute.POST echo TEMPLATE MODEL bare_request signed_in)
      = Return (toDataStreamResponse stream) /\
    messages stream = [].
Proof.
  assert (Hb : json bare_request = Return (JObj [("id", JStr "x")])) by reflexivity.
  assert (Hm : get_property (JObj [("id", JStr "x")]) "messages" = Return None \/
               get_property (JObj [("id", JStr "x")]) "messages" = Return (Some JNull))
    by (left; vm_compute; reflexivity).
  destruct (missing_messages_is_an_empty_history echo TEMPLATE MODEL bare_request
              (JObj [("id", JStr "x")]) Hb Hm) as (Hh & _ & _ & Hgoogle).
  split; [exact Hh|]. apply (Hgoogle signed_in "g-key"). vm_compute. reflexivity.
Defined.




(** Right after a submission: in flight, and not loading. *)
Lemma awaiting_is_in_flight_and_not_loading :
  ChatWindow.in_flight [ChatWindow.Submitted] = true /\
  ChatWindow.isChatLoading awaiting = false <->
  ChatWindow.chat_status awaiting = ChatWindow.submitted.
Proof.
  apply (proj2 (loading_is_exactly_streaming awaiting) [ChatWindow.Submitted]). reflexivity.
Defined.

(** ** Where the specification and the code part *)




(** C8, counterexample.  Between the submission and the start of the stream a
    request is in flight and the loading predicate is false. *)
Lemma submitted_request_is_not_loading :
  ChatWindow.chat_status awaiting = ChatWindow.status_after [ChatWindow.Submitted] /\
  ChatWindow.in_flight [ChatWindow.Submitted] = true /\
  ChatWindow.isChatLoading awaiting = false.
Proof. repeat split. Qed.

(** C10, counterexample.  The body [null] parses, has no [messages] member,
    and both routes answer it with status 500 and no stream. *)
Lemma null_body_is_answered_with_an_error :
  PlainRoute.POST echo null_request =
    {| console_output := [];
       outcome :=
         Return (NextResponse_json
                   (Some "Cannot read properties of null (reading 'messages')") 500) |} /\
  GoogleRoute.POST echo TEMPLATE MODEL null_request signed_in =
    GoogleRoute.catch_all
      (TypeError "Cannot read properties of null (reading 'messages')") /\
  (forall stream,
     outcome (PlainRoute.POST echo null_request) <> Return (toDataStreamResponse stream)) /\
  (forall stream,
     outcome (GoogleRoute.POST echo TEMPLATE MODEL null_request signed_in)
       <> Return (toDataStreamResponse stream)).
Proof. repeat split; intros stream H; vm_compute in H; discriminate. Qed.

End Instances.

(* ===================================================================== *)
(** * More about the request body and the plain route *)
(* ===================================================================== *)

Section RequestCoverage.
Import Js Agent RouteView.
Context {LangChainMessage : Type}.
Variable convert : JSON -> LangChainMessage.

(** The filter throws as soon as it meets a [null] entry. *)
Lemma filter_array_null_entry items :
  JNull ∈ items -> exists e, filter_array chat_role items = Throw e /\ status e = None.
Proof.
  induction items as [|m items IH]; intros Hin; [apply elem_of_nil in Hin; contradiction|].
  cbn [filter_array]. destruct m; try (eexists; split; reflexivity);
    (apply elem_of_cons in Hin as [Hin|Hin]; [discriminate|]);
    destruct (IH Hin) as (e & He & Hst); cbn; rewrite He; cbn; eauto.
Qed.

(** What the filter and the history throw is a [TypeError], without status. *)
Lemma filter_array_throws items e :
  filter_array chat_role items = Throw e -> status e = None.
Proof.
  induction items as [|m items IH]; [discriminate|]. cbn [filter_array].
  destruct m; cbn; try (intros [= <-]; reflexivity);
    (destruct (filter_array chat_role items) as [kept|e'] eqn:Hrest; cbn;
     [discriminate | intros [= <-]; apply IH; reflexivity]).
Qed.

Lemma history_throws body e : history convert body = Throw e -> status e = None.
Proof.
  unfold history. destruct body; cbn; try (intros [= <-]; reflexivity).
  destruct (nullish_or (own_property "messages" members) (JArr [])) as [| | | |items|];
    try (intros [= <-]; reflexivity).
  destruct (filter_array chat_role items) as [kept|e'] eqn:Hk; cbn; [discriminate|].
  intros [= <-]. exact (filter_array_throws _ _ Hk).
Qed.

(** X10.  Provided that a status carried by a rejection of [req.json()] is
    one a response accepts (outside that, [NextResponse.json] throws in the
    [catch] and the handler rejects), the plain route writes nothing to the
    console and returns a response.  It streams, from an agent without tools
    under its own template and without the development logger, exactly when
    the body yields a history; otherwise it answers with the caught error's
    message as it is (no default text, so possibly none) and its status or
    500. *)
Theorem plain_route_streams_or_forwards_the_error (req : NextRequest) :
  (forall e, json req = Throw e -> status_accepted e) ->
  console_output (PlainRoute.POST convert req) = [] /\
  exists r,
    outcome (PlainRoute.POST convert req) = Return r /\
    200 <= http_status r <= 599 /\
    match r with
    | toDataStreamResponse stream =>
        (exists body, json req = Return body /\
                      history convert body = Return (messages stream)) /\
        tools (agent stream) = [] /\
        messageModifier (agent stream) = PlainRoute.AGENT_SYSTEM_TEMPLATE /\
        model (agent_llm (agent stream)) = "gpt-4" /\
        tool_call_logging stream = false
    | NextResponse_json err st =>
        exists e,
          (json req = Throw e \/
           exists body, json req = Return body /\ history convert body = Throw e) /\
          err = message e /\ st = default 500 (status e)
    end.
Proof.
  intros Hstatus. unfold PlainRoute.POST. destruct (json req) as [body|e] eqn:Hb.
  2:{ split; [reflexivity|]. eexists. split; [reflexivity|]. cbn.
      specialize (Hstatus e eq_refl). unfold status_accepted in Hstatus.
      split; [destruct (status e); cbn; lia|]. exists e. auto. }
  rewrite await_Return_bind. destruct (history convert body) as [h|e] eqn:Hh.
  - rewrite await_Return_bind. split; [reflexivity|]. eexists. split; [reflexivity|].
    cbn. split; [lia|]. split; [exists body; auto|]. auto.
  - split; [reflexivity|]. eexists. split; [reflexivity|]. cbn.
    rewrite (history_throws _ _ Hh). cbn. split; [lia|].
    exists e. split; [right; exists body; auto|].
    rewrite (history_throws _ _ Hh). auto.
Qed.

(** X11.  The history of a conversation continued is the history of the
    conversation followed by the history of the continuation, and it is never
    longer than the conversation. *)
Theorem history_of_a_continued_conversation (items more : list JSON)
    (h h' : list LangChainMessage) :
  history convert (conversation items) = Return h ->
  history convert (conversation more) = Return h' ->
  history convert (conversation (items ++ more)) = Return (h ++ h')%list /\
  length h <= length items.
Proof.
  intros Hh Hh'.
  destruct (history_returns convert _ _ Hh) as (v & items0 & Hv & Hn & Hall & ->).
  destruct (history_returns convert _ _ Hh') as (v' & more0 & Hv' & Hn' & Hall' & ->).
  cbn in Hv, Hv'. inversion Hv; subst v. inversion Hv'; subst v'.
  cbn in Hn, Hn'. inversion Hn; subst items0. inversion Hn'; subst more0. split.
  - rewrite (history_total convert (conversation (items ++ more)) (Some (JArr (items ++ more)))
               (items ++ more)); [| reflexivity | reflexivity | apply Forall_app; auto].
    rewrite List.filter_app, List.map_app. reflexivity.
  - rewrite List.length_map. apply List.filter_length_le.
Qed.

End RequestCoverage.

(* ===================================================================== *)
(** * More about the Google-enabled routes *)
(* ===================================================================== *)

Section GoogleRouteCoverage.
Import Js Agent GoogleRoute RouteView.
Context {LangChainMessage : Type}.
Variable convert : JSON -> LangChainMessage.
Variables TEMPLATE MODEL : string.

Abbreviation POST := (POST convert TEMPLATE MODEL).

(** The basic tools come in two shapes. *)
Lemma basicTools_shapes w :
  (exists skey,
     truthy_value (process_env w !! "SERPAPI_API_KEY") = Some skey /\
     basicTools w = {| console_output := []; outcome := Return [Calculator; SerpAPI skey] |}) \/
  (truthy_value (process_env w !! "SERPAPI_API_KEY") = None /\
   basicTools w = {| console_output := [search_warning]; outcome := Return [Calculator] |}).
Proof.
  destruct (truthy_value (process_env w !! "SERPAPI_API_KEY")) as [skey|] eqn:Hs.
  - left. exists skey. split; [reflexivity | exact (basicTools_with_search _ _ Hs)].
  - right. split; [reflexivity | exact (basicTools_without_search _ Hs)].
Qed.

(** [provision] takes exactly one of the four ways of [provisioned]. *)
Lemma provision_provisioned w llm basic (h : list LangChainMessage) :
  exists tools template lines,
    provisioned TEMPLATE w llm basic tools template lines /\
    provision TEMPLATE w llm basic h =
      {| console_output := lines; outcome := Return (respond llm tools template h) |}.
Proof.
  destruct (getGoogleAccessToken w) as [tok|e] eqn:Ht.
  - destruct (truthy_value tok) as [token|] eqn:Hv.
    + destruct (googleTools w token llm) as [google|e] eqn:Hg.
      * pose proof (googleTools_returns _ _ _ _ Hg) as ->.
        exists (basic ++ google_tools token llm)%list, TEMPLATE, [retrieved_line; created_line].
        split; [exact (fully _ _ _ _ tok token Ht Hv Hg)|].
        exact (provision_full TEMPLATE _ _ _ _ _ _ _ Ht Hv Hg).
      * exists basic, (TEMPLATE ++ ERROR_NOTE e), (retrieved_line :: fallback_lines e).
        split; [exact (tools_rejected _ _ _ _ tok token e Ht Hv Hg)|].
        exact (provision_tools_rejected TEMPLATE _ _ _ _ _ _ _ Ht Hv Hg).
    + exists basic, (TEMPLATE ++ NO_TOKEN_NOTE), [no_token_warning].
      split; [exact (without_token _ _ _ _ tok Ht Hv)|].
      exact (provision_no_token TEMPLATE _ _ _ _ _ Ht Hv).
  - exists basic, (TEMPLATE ++ ERROR_NOTE e), (fallback_lines e).
    split; [exact (token_rejected _ _ _ _ e Ht)|].
    exact (provision_token_rejected TEMPLATE _ _ _ _ _ Ht).
Qed.

(** Once the body is read and the model key found, [POST] is the basic tools
    followed by one way through [provision]. *)
Lemma POST_provisioned req w body h key :
  json req = Return body -> history convert body = Return h ->
  truthy_value (process_env w !! "GOOGLE_API_KEY") = Some key ->
  exists basic lines0 tools template lines,
    basicTools w = {| console_output := lines0; outcome := Return basic |} /\
    provisioned TEMPLATE w (llm MODEL key) basic tools template lines /\
    POST req w =
      {| console_output := (lines0 ++ lines)%list;
         outcome := Return (respond (llm MODEL key) tools template h) |}.
Proof.
  intros Hb Hh Hk. rewrite (POST_configured convert TEMPLATE MODEL _ _ _ _ _ Hb Hh Hk).
  assert (exists basic lines0,
            basicTools w = {| console_output := lines0; outcome := Return basic |})
    as (basic & lines0 & Hbasic).
  { destruct (basicTools_shapes w) as [(skey & _ & H) | [_ H]]; rewrite H; eauto. }
  destruct (provision_provisioned w (llm MODEL key) basic h)
    as (tools & template & lines & Hway & Hp).
  exists basic, lines0, tools, template, lines. split; [exact Hbasic|]. split; [exact Hway|].
  rewrite Hbasic. unfold mbind, Eff_bind. cbn. rewrite Hp. reflexivity.
Qed.

(** X1.  A body that cannot be read is answered by the outer [catch], whatever
    the environment and the collaborators are: one [console.error] line, the
    error's message (or 'Unknown server error' when it has none), and the
    error's status (or 500 when it has none). *)
Theorem unreadable_body_is_answered_by_the_catch_all (req : NextRequest)
    (w : Collaborators) (e : JsError) :
  json req = Throw e -> status_accepted e ->
  POST req w =
    {| console_output := [ {| level := error; text := "API error:"; arg := Some e |} ];
       outcome :=
         Return (NextResponse_json
                   (Some (match message e with
                          | Some m => if String.eqb m "" then "Unknown server error" else m
                          | None => "Unknown server error"
                          end))
                   (match status e with Some st => st | None => 500 end)) |}.
Proof.
  intros Hb _. rewrite (POST_unreadable_body convert TEMPLATE MODEL _ _ _ Hb).
  unfold catch_all, or_string, truthy_string.
  destruct (message e) as [m|]; [destruct (String.eqb m "")|]; reflexivity.
Qed.

(** X2.  A [messages] member that is neither [null] nor an array, or an array
    that holds a [null] entry, makes the filter throw a [TypeError]: both
    routes answer with status 500 and its message, and the Google routes do so
    before they look at the environment. *)
Theorem malformed_messages_are_rejected (req : NextRequest) (body v : JSON) :
  json req = Return body ->
  get_property body "messages" = Return (Some v) ->
  (v <> JNull /\ is_array v = false) \/ (exists items, v = JArr items /\ JNull ∈ items) ->
  exists e,
    history convert body = Throw e /\ status e = None /\
    (forall w, POST req w = catch_all e) /\
    (forall w, exists m, outcome (POST req w) = Return (NextResponse_json (Some m) 500)) /\
    PlainRoute.POST convert req =
      {| console_output := []; outcome := Return (NextResponse_json (message e) 500) |}.
Proof.
  intros Hb Hv Hbad.
  assert (exists e, history convert body = Throw e /\ status e = None) as (e & Hh & Hst).
  { unfold history. rewrite Hv. cbn. destruct Hbad as [[Hnn Harr] | (items & -> & Hin)].
    - destruct v; try (eexists; split; reflexivity); [contradiction | discriminate].
    - cbn. destruct (filter_array_null_entry _ Hin) as (e & He & Hst). rewrite He. eauto. }
  exists e. split; [exact Hh|]. split; [exact Hst|]. split; [|split].
  - intros w. exact (POST_unusable_body convert TEMPLATE MODEL _ _ _ _ Hb Hh).
  - intros w. rewrite (POST_unusable_body convert TEMPLATE MODEL _ _ _ _ Hb Hh).
    unfold catch_all. cbn. rewrite Hst. eauto.
  - unfold PlainRoute.POST. rewrite Hb, await_Return_bind, Hh. cbn. rewrite Hst. reflexivity.
Qed.

(** X3.  With a usable search key the search tool comes second, right after
    the calculator, on every way through provisioning, and no warning about
    it is written; when a token comes back and the Google tools are built,
    they follow in the order of the array literal and the console holds the
    two progress lines only. *)
Theorem search_key_adds_the_search_tool (req : NextRequest) (w : Collaborators)
    (body : JSON) (h : list LangChainMessage) (key skey : string) :
  json req = Return body -> history convert body = Return h ->
  truthy_value (process_env w !! "GOOGLE_API_KEY") = Some key ->
  truthy_value (process_env w !! "SERPAPI_API_KEY") = Some skey ->
  exists stream rest,
    outcome (POST req w) = Return (toDataStreamResponse stream) /\
    tools (agent stream) = Calculator :: SerpAPI skey :: rest /\
    (search_warning ∉ console_output (POST req w)) /\
    (forall tok token,
       getGoogleAccessToken w = Return tok -> truthy_value tok = Some token ->
       (forall t, constructor_failure w t = None) ->
       rest = google_tools token (llm MODEL key) /\
       console_output (POST req w) = [retrieved_line; created_line]).
Proof.
  intros Hb Hh Hk Hs.
  destruct (POST_provisioned _ _ _ _ _ Hb Hh Hk)
    as (basic & lines0 & tools & template & lines & Hbasic & Hway & Hpost).
  rewrite (basicTools_with_search _ _ Hs) in Hbasic. inversion Hbasic; subst basic lines0.
  rewrite Hpost. cbn [console_output outcome app].
  assert (Hnowarn : forall e, search_warning ∉ fallback_lines e).
  { intros e Hin. unfold fallback_lines in Hin.
    repeat (apply elem_of_cons in Hin as [Hin|Hin]; [discriminate|]).
    apply elem_of_nil in Hin. exact Hin. }
  destruct Hway as [tok Ht Hv | e Ht | tok token e Ht Hv Hg | tok token Ht Hv Hg].
  - eexists _, []. split; [reflexivity|]. split; [reflexivity|]. split.
    + intros Hin. apply elem_of_cons in Hin as [Hin|Hin]; [discriminate|].
      apply elem_of_nil in Hin. exact Hin.
    + intros tok' token' Ht' Hv'. congruence.
  - eexists _, []. split; [reflexivity|]. split; [reflexivity|]. split; [apply Hnowarn|].
    intros tok' token' Ht'. congruence.
  - eexists _, []. split; [reflexivity|]. split; [reflexivity|]. split.
    + intros Hin. apply elem_of_cons in Hin as [Hin|Hin]; [discriminate|].
      exact (Hnowarn e Hin).
    + intros tok' token' Ht' Hv' Hnone. exfalso.
      assert (tok' = tok) by congruence. subst tok'.
      assert (token' = token) by congruence. subst token'.
      unfold googleTools, new in Hg. rewrite !Hnone in Hg. discriminate.
  - eexists _, (google_tools token (llm MODEL key)).
    split; [reflexivity|]. split; [reflexivity|]. split.
    + intros Hin. repeat (apply elem_of_cons in Hin as [Hin|Hin]; [discriminate|]).
      apply elem_of_nil in Hin. exact Hin.
    + intros tok' token' Ht' Hv' _.
      assert (tok' = tok) by congruence. subst tok'.
      assert (token' = token) by congruence. subst token'. split; reflexivity.
Qed.

(** X4.  When the token comes back [undefined] or empty, no Google tool is
    constructed: the answer is the stream from the basic tools under the
    template with the sign-out note, after the warning line, and it is the
    same whatever the constructors would have done. *)
Theorem missing_token_degrades_without_building_tools (req : NextRequest)
    (w : Collaborators) (body : JSON) (h : list LangChainMessage) (key : string) :
  json req = Return body -> history convert body = Return h ->
  truthy_value (process_env w !! "GOOGLE_API_KEY") = Some key ->
  getGoogleAccessToken w = Return None \/ getGoogleAccessToken w = Return (Some "") ->
  exists basic lines0,
    basicTools w = {| console_output := lines0; outcome := Return basic |} /\
    POST req w =
      {| console_output := (lines0 ++ [no_token_warning])%list;
         outcome := Return (respond (llm MODEL key) basic (TEMPLATE ++ NO_TOKEN_NOTE) h) |} /\
    includes NO_TOKEN_NOTE
      "Please sign out, then sign back in and make sure to allow all requested permissions."
      = true /\
    (forall failures,
       POST req {| process_env := process_env w;
                   getGoogleAccessToken := getGoogleAccessToken w;
                   constructor_failure := failures |} = POST req w).
Proof.
  intros Hb Hh Hk Htok.
  assert (exists tok, getGoogleAccessToken w = Return tok /\ truthy_value tok = None)
    as (tok & Ht & Hv) by (destruct Htok as [H|H]; rewrite H; eauto).
  assert (Hpost : forall w', process_env w' = process_env w ->
            getGoogleAccessToken w' = getGoogleAccessToken w ->
            POST req w' =
              {| console_output := (console_output (basicTools w) ++ [no_token_warning])%list;
                 outcome :=
                   Return (respond (llm MODEL key)
                             (match outcome (basicTools w) with
                              | Return basic => basic
                              | Throw _ => []
                              end) (TEMPLATE ++ NO_TOKEN_NOTE) h) |}).
  { intros w' Henv Htoken.
    assert (Hk' : truthy_value (process_env w' !! "GOOGLE_API_KEY") = Some key)
      by (rewrite Henv; exact Hk).
    rewrite (POST_configured convert TEMPLATE MODEL _ _ _ _ _ Hb Hh Hk').
    assert (Hsame : basicTools w' = basicTools w) by (unfold basicTools; rewrite Henv; reflexivity).
    rewrite Hsame. destruct (basicTools_returns w) as [rest Hrest].
    rewrite (bind_returned _ _ _ Hrest), Hrest.
    rewrite (provision_no_token TEMPLATE w' _ _ _ tok); [reflexivity | congruence | exact Hv]. }
  destruct (basicTools_shapes w) as [(skey & _ & Hbasic) | [_ Hbasic]].
  - exists [Calculator; SerpAPI skey], []. split; [exact Hbasic|].
    split; [rewrite (Hpost w eq_refl eq_refl), Hbasic; reflexivity|].
    split; [vm_compute; reflexivity|].
    intros failures. rewrite (Hpost w eq_refl eq_refl). apply Hpost; reflexivity.
  - exists [Calculator], [search_warning]. split; [exact Hbasic|].
    split; [rewrite (Hpost w eq_refl eq_refl), Hbasic; reflexivity|].
    split; [vm_compute; reflexivity|].
    intros failures. rewrite (Hpost w eq_refl eq_refl). apply Hpost; reflexivity.
Qed.

(** The constructors are called in order, and the first failure ends the
    construction. *)
Lemma googleTools_first_failure w token llm :
  googleTools w token llm =
    match first_failure w (google_tools token llm) with
    | Some e => Throw e
    | None => Return (google_tools token llm)
    end.
Proof.
  unfold googleTools, new, google_tools. cbn [first_failure].
  repeat match goal with
         | |- context [constructor_failure w ?t] =>
             destruct (constructor_failure w t); cbn; [reflexivity|]
         end.
  reflexivity.
Qed.

(** X5.  Of several constructors that would throw, the first one in the order
    GmailSearch, GmailCreateDraft, GoogleCalendarCreateTool,
    GoogleCalendarViewTool decides: its error is the one logged and the one
    whose hint goes into the template, and the agent gets the basic tools. *)
Theorem first_failing_constructor_decides (req : NextRequest) (w : Collaborators)
    (body : JSON) (h : list LangChainMessage) (key : string)
    (tok : option string) (token : string) (e : JsError) :
  json req = Return body -> history convert body = Return h ->
  truthy_value (process_env w !! "GOOGLE_API_KEY") = Some key ->
  getGoogleAccessToken w = Return tok -> truthy_value tok = Some token ->
  first_failure w (google_tools token (llm MODEL key)) = Some e ->
  exists basic lines0,
    basicTools w = {| console_output := lines0; outcome := Return basic |} /\
    POST req w =
      {| console_output := (lines0 ++ retrieved_line :: fallback_lines e)%list;
         outcome := Return (respond (llm MODEL key) basic (TEMPLATE ++ ERROR_NOTE e) h) |}.
Proof.
  intros Hb Hh Hk Ht Hv Hfirst.
  assert (Hg : googleTools w token (llm MODEL key) = Throw e)
    by (rewrite googleTools_first_failure, Hfirst; reflexivity).
  destruct (POST_provisioned _ _ _ _ _ Hb Hh Hk)
    as (basic & lines0 & tools & template & lines & Hbasic & Hway & Hpost).
  exists basic, lines0. split; [exact Hbasic|]. rewrite Hpost.
  destruct Hway as [tok' Ht' Hv' | e' Ht' | tok' token' e' Ht' Hv' Hg' | tok' token' Ht' Hv' Hg'];
    congruence.
Qed.

(** A note that is not empty changes the template. *)
Lemma append_nonempty_differs (s note : string) : note <> "" -> s ++ note <> s.
Proof.
  intros Hne. induction s as [|a s IH]; cbn.
  - exact Hne.
  - intros H. inversion H. contradiction.
Qed.

(** Both notes are notes: not empty, and naming what is unavailable. *)
Lemma notes_are_notes :
  (NO_TOKEN_NOTE <> "" /\
   includes NO_TOKEN_NOTE
     "NOTE: Google integrations (Gmail, Calendar) are currently unavailable" = true) /\
  (forall e,
     ERROR_NOTE e <> "" /\
     includes (ERROR_NOTE e)
       "NOTE: Google integrations (Gmail, Calendar) are currently unavailable" = true).
Proof.
  split.
  - split; [vm_compute; discriminate | vm_compute; reflexivity].
  - intros e. unfold ERROR_NOTE.
    destruct (errorContext_cases e) as [-> | [-> | ->]];
      (split; [vm_compute; discriminate | vm_compute; reflexivity]).
Qed.

(** A stream response comes from a body that was read, a model key that was
    found, and one way through provisioning. *)
Lemma POST_stream_provisioned req w stream :
  outcome (POST req w) = Return (toDataStreamResponse stream) ->
  exists h key basic lines0 tools template lines,
    basicTools w = {| console_output := lines0; outcome := Return basic |} /\
    provisioned TEMPLATE w (llm MODEL key) basic tools template lines /\
    stream = logToolCallsInDevelopment
               (streamEvents (createReactAgent (llm MODEL key) tools template) h).
Proof.
  intros H. destruct (POST_stream_history convert TEMPLATE MODEL _ _ _ H) as (body & Hb & Hh).
  destruct (truthy_value (process_env w !! "GOOGLE_API_KEY")) as [key|] eqn:Hk.
  - destruct (POST_provisioned _ _ _ _ _ Hb Hh Hk)
      as (basic & lines0 & tools & template & lines & Hbasic & Hway & Hpost).
    rewrite Hpost in H. inversion H. eauto 10.
  - rewrite (POST_unconfigured convert TEMPLATE MODEL _ _ _ _ Hb Hh Hk) in H. discriminate.
Qed.

(** X6.  In every stream response the template matches the tools: either the
    agent has the four Google tools after the basic ones and the system
    template as it is, or it has only the calculator and possibly the search
    tool, and the template ends in a note, not empty, that says the Google
    integrations are unavailable.  So the template is the system template
    exactly when the agent can search Gmail. *)
Theorem template_matches_the_tools (req : NextRequest) (w : Collaborators)
    (stream : EventStream LangChainMessage) :
  outcome (POST req w) = Return (toDataStreamResponse stream) ->
  ((exists key token basic,
      tools (agent stream) = (basic ++ google_tools token (llm MODEL key))%list /\
      messageModifier (agent stream) = TEMPLATE) \/
   ((forall t, t ∈ tools (agent stream) -> t = Calculator \/ exists k, t = SerpAPI k) /\
    exists note,
      note <> "" /\ messageModifier (agent stream) = TEMPLATE ++ note /\
      includes note "NOTE: Google integrations (Gmail, Calendar) are currently unavailable"
        = true)) /\
  (messageModifier (agent stream) = TEMPLATE <->
   exists token, GmailSearch token ∈ tools (agent stream)).
Proof.
  intros H.
  destruct (POST_stream_provisioned _ _ _ H)
    as (h & key & basic & lines0 & tools & template & lines & Hbasic & Hway & ->).
  cbn [agent logToolCallsInDevelopment streamEvents Agent.tools messageModifier].
  assert (Hbasic_tools : forall t, t ∈ basic -> t = Calculator \/ exists k, t = SerpAPI k).
  { intros t Hin.
    destruct (basicTools_shapes w) as [(skey & _ & Hshape) | [_ Hshape]];
      rewrite Hshape in Hbasic; inversion Hbasic; subst basic;
      repeat (apply elem_of_cons in Hin as [->|Hin]; [eauto|]);
      apply elem_of_nil in Hin; contradiction. }
  assert (Hno_gmail : forall token, GmailSearch token ∉ basic).
  { intros token Hin. destruct (Hbasic_tools _ Hin) as [?|[k ?]]; discriminate. }
  assert (Hdegraded : forall note,
            note <> "" ->
            includes note "NOTE: Google integrations (Gmail, Calendar) are currently unavailable"
              = true ->
            ((exists key' token basic',
                basic = (basic' ++ google_tools token (llm MODEL key'))%list /\
                TEMPLATE ++ note = TEMPLATE) \/
             ((forall t, t ∈ basic -> t = Calculator \/ exists k, t = SerpAPI k) /\
              exists note',
                note' <> "" /\ TEMPLATE ++ note = TEMPLATE ++ note' /\
                includes note'
                  "NOTE: Google integrations (Gmail, Calendar) are currently unavailable"
                  = true)) /\
            (TEMPLATE ++ note = TEMPLATE <-> exists token, GmailSearch token ∈ basic)).
  { intros note Hne Hinc. split.
    - right. split; [exact Hbasic_tools|]. exists note. auto.
    - split.
      + intros Heq. exfalso. exact (append_nonempty_differs _ _ Hne Heq).
      + intros [token Hin]. exfalso. exact (Hno_gmail _ Hin). }
  destruct Hway as [tok Ht Hv | e Ht | tok token e Ht Hv Hg | tok token Ht Hv Hg].
  - apply Hdegraded; apply (proj1 notes_are_notes).
  - apply Hdegraded; apply (proj2 notes_are_notes e).
  - apply Hdegraded; apply (proj2 notes_are_notes e).
  - split.
    + left. exists key, token, basic. split; reflexivity.
    + split; [intros _|reflexivity]. exists token.
      apply elem_of_app. right. apply list_elem_of_here.
Qed.

(** X7.  Whatever the request and the collaborators are, every line the
    handler writes to the console has one of eight fixed texts; the only value
    logged besides them is the caught error of the two [console.error] calls
    in the [catch] blocks.  The handler passes neither a key nor the access
    token to the console. *)
Theorem console_lines_are_fixed_texts (req : NextRequest) (w : Collaborators)
    (line : LogLine) :
  line ∈ console_output (POST req w) ->
  text line ∈ console_literals /\
  (arg line = None \/
   exists e, arg line = Some e /\
             (text line = "Google API access error:" \/ text line = "API error:")).
Proof.
  assert (Hlit : forall l : LogLine,
            l ∈ [missing_key_line; search_warning; no_token_warning; retrieved_line;
                 created_line;
                 {| level := log; text := "Falling back to LLM without Google integrations";
                    arg := None |}] ->
            text l ∈ console_literals /\
            (arg l = None \/
             exists e, arg l = Some e /\
                       (text l = "Google API access error:" \/ text l = "API error:"))).
  { intros l Hin. unfold console_literals.
    repeat (apply elem_of_cons in Hin as [->|Hin];
            [split; [cbn; repeat first [apply list_elem_of_here | apply list_elem_of_further]
                    | left; reflexivity]|]).
    apply elem_of_nil in Hin. contradiction. }
  assert (Herr : forall (t : string) e,
            t = "Google API access error:" \/ t = "API error:" ->
            text {| level := error; text := t; arg := Some e |} ∈ console_literals /\
            (arg {| level := error; text := t; arg := Some e |} = None \/
             exists e', arg {| level := error; text := t; arg := Some e |} = Some e' /\
                        (text {| level := error; text := t; arg := Some e |}
                           = "Google API access error:" \/
                         text {| level := error; text := t; arg := Some e |} = "API error:"))).
  { intros t e Ht. cbn. split.
    - unfold console_literals.
      destruct Ht as [-> | ->];
        repeat first [apply list_elem_of_here | apply list_elem_of_further].
    - right. exists e. split; [reflexivity | exact Ht]. }
  assert (Hfallback : forall e l, l ∈ fallback_lines e ->
            text l ∈ console_literals /\
            (arg l = None \/
             exists e', arg l = Some e' /\
                        (text l = "Google API access error:" \/ text l = "API error:"))).
  { intros e l Hin. unfold fallback_lines in Hin.
    apply elem_of_cons in Hin as [->|Hin]; [apply Herr; left; reflexivity|].
    apply elem_of_cons in Hin as [->|Hin];
      [apply Hlit; repeat first [apply list_elem_of_here | apply list_elem_of_further]|].
    apply elem_of_nil in Hin. contradiction. }
  intros Hin. destruct (json req) as [body|e] eqn:Hb.
  2:{ rewrite (POST_unreadable_body convert TEMPLATE MODEL _ _ _ Hb) in Hin.
      apply elem_of_cons in Hin as [->|Hin]; [apply Herr; right; reflexivity|].
      apply elem_of_nil in Hin. contradiction. }
  destruct (history convert body) as [h|e] eqn:Hh.
  2:{ rewrite (POST_unusable_body convert TEMPLATE MODEL _ _ _ _ Hb Hh) in Hin.
      apply elem_of_cons in Hin as [->|Hin]; [apply Herr; right; reflexivity|].
      apply elem_of_nil in Hin. contradiction. }
  destruct (truthy_value (process_env w !! "GOOGLE_API_KEY")) as [key|] eqn:Hk.
  2:{ rewrite (POST_unconfigured convert TEMPLATE MODEL _ _ _ _ Hb Hh Hk) in Hin.
      apply Hlit. apply elem_of_cons in Hin as [->|Hin]; [apply list_elem_of_here|].
      apply elem_of_nil in Hin. contradiction. }
  destruct (POST_provisioned _ _ _ _ _ Hb Hh Hk)
    as (basic & lines0 & tools & template & lines & Hbasic & Hway & Hpost).
  rewrite Hpost in Hin. cbn [console_output] in Hin. apply elem_of_app in Hin as [Hin|Hin].
  - destruct (basicTools_shapes w) as [(skey & _ & Hshape) | [_ Hshape]];
      rewrite Hshape in Hbasic; inversion Hbasic; subst lines0.
    + apply elem_of_nil in Hin. contradiction.
    + apply Hlit. apply elem_of_cons in Hin as [->|Hin];
        [repeat first [apply list_elem_of_here | apply list_elem_of_further]|].
      apply elem_of_nil in Hin. contradiction.
  - destruct Hway as [tok Ht Hv | e Ht | tok token e Ht Hv Hg | tok token Ht Hv Hg].
    + apply Hlit. apply elem_of_cons in Hin as [->|Hin];
        [repeat first [apply list_elem_of_here | apply list_elem_of_further]|].
      apply elem_of_nil in Hin. contradiction.
    + exact (Hfallback e _ Hin).
    + apply elem_of_cons in Hin as [->|Hin]; [|exact (Hfallback e _ Hin)].
      apply Hlit. repeat first [apply list_elem_of_here | apply list_elem_of_further].
    + apply Hlit.
      repeat (apply elem_of_cons in Hin as [->|Hin];
              [repeat first [apply list_elem_of_here | apply list_elem_of_further]|]).
      apply elem_of_nil in Hin. contradiction.
Qed.

(** [a || d] is never empty when [d] is not. *)
Lemma or_string_nonempty a d : d <> "" -> or_string a d <> "".
Proof.
  intros Hd. unfold or_string, truthy_string. destruct a as [s|]; [|exact Hd].
  destruct (String.eqb_spec s ""); cbn; assumption.
Qed.

(** X8.  An error answer of the Google routes always has an [error] text, and
    never an empty one: it is the configuration error, with status 500 and
    only when the model key is unusable, or it is the message of the error
    caught while reading the body ('Unknown server error' when that is missing
    or empty), with that error's status or 500. *)
Theorem error_answers_carry_a_text (req : NextRequest) (w : Collaborators)
    (err : option string) (st : nat) :
  outcome (POST req w) = Return (NextResponse_json err st) ->
  exists m,
    err = Some m /\ m <> "" /\
    ((m = "Server configuration error: Missing Gemini API key" /\ st = 500 /\
      truthy_value (process_env w !! "GOOGLE_API_KEY") = None) \/
     (exists e,
        (json req = Throw e \/
         exists body, json req = Return body /\ history convert body = Throw e) /\
        m = or_string (message e) "Unknown server error" /\
        st = default 500 (status e))).
Proof.
  intros H. destruct (json req) as [body|e] eqn:Hb.
  2:{ rewrite (POST_unreadable_body convert TEMPLATE MODEL _ _ _ Hb) in H. inversion H.
      eexists. split; [reflexivity|]. split; [apply or_string_nonempty; discriminate|].
      right. exists e. auto. }
  destruct (history convert body) as [h|e] eqn:Hh.
  2:{ rewrite (POST_unusable_body convert TEMPLATE MODEL _ _ _ _ Hb Hh) in H. inversion H.
      eexists. split; [reflexivity|]. split; [apply or_string_nonempty; discriminate|].
      right. exists e. split; [right; exists body; auto | auto]. }
  destruct (truthy_value (process_env w !! "GOOGLE_API_KEY")) as [key|] eqn:Hk.
  - destruct (POST_provisioned _ _ _ _ _ Hb Hh Hk)
      as (basic & lines0 & tools & template & lines & _ & _ & Hpost).
    rewrite Hpost in H. discriminate.
  - rewrite (POST_unconfigured convert TEMPLATE MODEL _ _ _ _ Hb Hh Hk) in H. inversion H.
    eexists. split; [reflexivity|]. split; [discriminate|]. left. auto.
Qed.

(** X9.  The handler never rejects: for every request and every behaviour of
    the collaborators it returns a response, a stream with status 200 or an
    error answer whose status is 500 or the one the body's parser gave its
    error (taken to be a status a response accepts). *)
Theorem POST_always_answers (req : NextRequest) (w : Collaborators) :
  (forall e, json req = Throw e -> status_accepted e) ->
  exists r, outcome (POST req w) = Return r /\ 200 <= http_status r <= 599.
Proof.
  intros Hstatus. destruct (json req) as [body|e] eqn:Hb.
  2:{ rewrite (POST_unreadable_body convert TEMPLATE MODEL _ _ _ Hb).
      eexists. split; [reflexivity|]. cbn. specialize (Hstatus e eq_refl).
      unfold status_accepted in Hstatus. destruct (status e); cbn; lia. }
  destruct (history convert body) as [h|e] eqn:Hh.
  2:{ rewrite (POST_unusable_body convert TEMPLATE MODEL _ _ _ _ Hb Hh).
      eexists. split; [reflexivity|]. cbn. rewrite (history_throws convert _ _ Hh). cbn. lia. }
  destruct (truthy_value (process_env w !! "GOOGLE_API_KEY")) as [key|] eqn:Hk.
  - destruct (POST_provisioned _ _ _ _ _ Hb Hh Hk)
      as (basic & lines0 & tools & template & lines & _ & _ & Hpost).
    rewrite Hpost. eexists. split; [reflexivity|]. cbn. lia.
  - rewrite (POST_unconfigured convert TEMPLATE MODEL _ _ _ _ Hb Hh Hk).
    eexists. split; [reflexivity|]. cbn. lia.
Qed.

End GoogleRouteCoverage.

(* ===================================================================== *)
(** * More about the chat window *)
(* ===================================================================== *)

Section ChatWindowCoverage.
Import Js ChatWindow ChatView.
Variable placeholder_prop : option string.

Abbreviation step := (step placeholder_prop).
Abbreviation run := (run placeholder_prop).
Abbreviation gesture := (gesture placeholder_prop).

(** Setting the error state to what it is changes nothing. *)
Lemma setHasError_same s : setHasError (hasError s) s = s.
Proof. destruct s; reflexivity. Qed.

(** X12.  A non-success response and a transport failure each leave the
    window blocked: the error state is set, the input and the submit button
    are disabled, the placeholder asks for a retry, and a submission, by Enter
    or by click, is discarded. *)
Theorem failures_block_the_window (s : State) (ev : Event) :
  (exists r, ev = Response r /\ ok r = false) \/ (exists e, ev = Failure e) ->
  is_Some (hasError (step s ev).1) /\
  input_disabled (ChatInput_props placeholder_prop (step s ev).1) = true /\
  submit_disabled (ChatInput_props placeholder_prop (step s ev).1) = true /\
  placeholder (ChatInput_props placeholder_prop (step s ev).1)
    = "Please retry connection before sending messages" /\
  (forall g, g <> ClickRetry -> gesture g (step s ev).1 = ((step s ev).1, [])).
Proof.
  intros Hev.
  assert (Hset : is_Some (hasError (step s ev).1)).
  { destruct Hev as [(r & -> & Hok) | (e & ->)]; cbn.
    - unfold onResponse. rewrite Hok. cbn. eauto.
    - eauto. }
  split; [exact Hset|].
  unfold input_disabled, submit_disabled, ChatInput_props. cbn.
  rewrite (bool_decide_eq_true_2 _ Hset), orb_true_r.
  repeat (split; [reflexivity|]).
  intros g Hg. apply gesture_blocked; assumption.
Qed.

(** X13.  With the error state set and no message listed, neither the banner
    nor its Retry button is rendered and the form is disabled: no gesture has
    any effect. *)
Theorem error_without_messages_is_a_dead_end (s : State) (g : Gesture) :
  is_Some (hasError s) -> chat_messages s = [] ->
  banner s = None /\ retry_rendered s = false /\ gesture g s = (s, []).
Proof.
  intros Hset Hempty. unfold banner, retry_rendered. rewrite Hempty. cbn.
  repeat split. destruct g.
  - apply gesture_blocked; [assumption | discriminate].
  - apply gesture_blocked; [assumption | discriminate].
  - unfold ChatWindow.gesture, retry_rendered. rewrite Hempty. reflexivity.
Qed.

(** X14.  The banner is rendered exactly when Retry is, and its text is never
    empty: it is the error's message, or the advice to log out and back in
    when the message is missing or empty.  After a non-success response whose
    [error] member is a non-empty string, and after a transport failure with
    a message, the banner shows exactly that text. *)
Theorem banner_shows_the_message (s : State) :
  (is_Some (banner s) <-> retry_rendered s = true) /\
  (forall t, banner s = Some t -> t <> "") /\
  (chat_messages s <> [] ->
   (forall r data msg,
      ok r = false -> response_json r = Return data ->
      get_property data "error" = Return (Some (JStr msg)) -> msg <> "" ->
      banner (onResponse r s).1 = Some msg) /\
   (forall e msg,
      message e = Some msg -> msg <> "" -> banner (onError e s).1 = Some msg) /\
   (forall e,
      message e = None \/ message e = Some "" ->
      banner (onError e s).1 = Some "Try logging out and back in to refresh permissions")).
Proof.
  assert (Hkeep : forall msg, msg <> "" -> Agent.or_string (Some msg) "Try logging out and back in to refresh permissions" = msg).
  { intros msg Hne. unfold Agent.or_string, truthy_string.
    destruct (String.eqb_spec msg ""); [contradiction|reflexivity]. }
  split; [|split].
  - unfold banner, retry_rendered, ErrorNotification.
    destruct (Nat.eqb (length (chat_messages s)) 0); cbn.
    + split; [intros [? ?]; discriminate | discriminate].
    + destruct (hasError s) as [e|]; cbn.
      * split; [reflexivity | eauto].
      * split; [intros [? ?]; discriminate | discriminate].
  - unfold banner, ErrorNotification. intros t.
    destruct (Nat.eqb (length (chat_messages s)) 0); [discriminate|].
    destruct (hasError s) as [e|]; [|discriminate]. intros [= <-].
    unfold Agent.or_string, truthy_string. destruct (message e) as [m|]; [|discriminate].
    destruct (String.eqb_spec m ""); cbn; [discriminate | assumption].
  - intros Hmessages.
    assert (Hlen : Nat.eqb (length (chat_messages s)) 0 = false)
      by (destruct (chat_messages s); [contradiction | reflexivity]).
    split; [|split].
    + intros r data msg Hok Hd He Hne. unfold banner, onResponse. rewrite Hok. cbn.
      rewrite Hlen, (response_error_of_message _ _ _ Hd He Hne). cbn. f_equal.
      apply Hkeep; assumption.
    + intros e msg Hm Hne. unfold banner. cbn. rewrite Hlen, Hm. f_equal.
      apply Hkeep; assumption.
    + intros e Hm. unfold banner. cbn. rewrite Hlen. destruct Hm as [-> | ->]; reflexivity.
Qed.

(** What one event does to the address, the toasts and the submissions. *)
Lemma step_keeps_the_address s ev :
  is_retry ev = false -> location_href (step s ev).1 = location_href s.
Proof.
  destruct ev as [g|r|c|e|st i ms]; cbn; try reflexivity.
  - destruct g; [| |discriminate]; intros _;
      unfold ChatWindow.gesture;
      match goal with |- context [if ?b then _ else _] => destruct b end;
      try reflexivity; unfold sendMessage; destruct (isChatLoading s); reflexivity.
  - intros _. unfold onResponse. destruct (negb (ok r)); reflexivity.
Qed.

Lemma step_toasts s ev :
  length (List.filter is_toast (step s ev).2) = if is_failure ev then 1 else 0.
Proof.
  destruct ev as [g|r|c|e|st i ms]; cbn; try reflexivity.
  - destruct g; unfold ChatWindow.gesture;
      match goal with |- context [if ?b then _ else _] => destruct b end;
      try reflexivity; unfold sendMessage; destruct (isChatLoading s); reflexivity.
  - unfold onResponse. destruct (negb (ok r)); reflexivity.
Qed.

Lemma step_submissions s ev :
  length (List.filter is_handleSubmit (step s ev).2) <= if is_submission ev then 1 else 0.
Proof.
  destruct ev as [g|r|c|e|st i ms]; cbn; try lia.
  - destruct g; unfold ChatWindow.gesture;
      match goal with |- context [if ?b then _ else _] => destruct b end;
      cbn; try lia; unfold sendMessage; destruct (isChatLoading s); cbn; lia.
  - unfold onResponse. destruct (negb (ok r)); cbn; lia.
Qed.

(** [run], one event at a time. *)
Lemma run_cons s ev evs :
  run s (ev :: evs) =
    ((run (step s ev).1 evs).1, ((step s ev).2 ++ (run (step s ev).1 evs).2)%list).
Proof.
  cbn [ChatWindow.run]. destruct (ChatWindow.step placeholder_prop s ev) as [s1 done1]. cbn.
  destruct (ChatWindow.run placeholder_prop s1 evs) as [s2 done2]. reflexivity.
Qed.

(** X15.  The window navigates only on Retry: along any sequence of events
    without a click on Retry, [window.location.href] stays what it was; and
    whatever the events are, it ends as it began or at the logout address. *)
Theorem only_retry_navigates (evs : list Event) (s : State) :
  (forallb (fun ev => negb (is_retry ev)) evs = true ->
   location_href (run s evs).1 = location_href s) /\
  (location_href (run s evs).1 = location_href s \/
   location_href (run s evs).1 = "/auth/logout?returnTo=/").
Proof.
  revert s. induction evs as [|ev evs IH]; intros s; [split; [reflexivity | left; reflexivity]|].
  rewrite run_cons. cbn [fst forallb]. destruct (IH (step s ev).1) as [IHquiet IHany]. split.
  - intros Hall. apply andb_true_iff in Hall as [Hev Hrest].
    rewrite (IHquiet Hrest). apply step_keeps_the_address.
    destruct (is_retry ev); [discriminate | reflexivity].
  - destruct IHany as [Hsame | Hlogout]; [|right; exact Hlogout].
    rewrite Hsame. destruct (is_retry ev) eqn:Hretry.
    + destruct ev as [[| |]| | | |]; try discriminate. cbn.
      destruct (retry_rendered s); [right | left]; reflexivity.
    + left. apply step_keeps_the_address. exact Hretry.
Qed.

(** X16.  Along any sequence of events the window raises exactly one toast
    per call of [onError], and none in any other handler: [onResponse] itself
    raises none, also for a non-success response, and a toast that follows
    one is the [onError] call the hook makes after it.  It calls
    [chat.handleSubmit] at most once per submission gesture, never on its
    own. *)
Theorem toasts_and_submissions_are_counted (evs : list Event) (s : State) :
  length (List.filter is_toast (run s evs).2) = length (List.filter is_failure evs) /\
  length (List.filter is_handleSubmit (run s evs).2)
    <= length (List.filter is_submission evs).
Proof.
  revert s. induction evs as [|ev evs IH]; intros s; [split; cbn; lia|].
  rewrite run_cons. cbn [snd List.filter]. rewrite !List.filter_app, !List.length_app.
  destruct (IH (step s ev).1) as [IHtoast IHsubmit].
  pose proof (step_toasts s ev) as Htoast. pose proof (step_submissions s ev) as Hsubmit.
  rewrite IHtoast, Htoast. split.
  - destruct (is_failure ev); cbn; lia.
  - destruct (is_submission ev); cbn; lia.
Qed.

(** X17.  Only streaming and a set error state hold a submission back: with
    no error set and any other status, 'submitted' included, a submission
    gesture leaves the state as it is and calls [chat.handleSubmit].  So a
    second message sent before the first response stream starts is handed to
    the hook as well. *)
Theorem submission_is_accepted_before_the_stream_starts (g : Gesture) (s : State) :
  g = PressEnter \/ g = ClickSubmit ->
  hasError s = None -> chat_status s <> streaming ->
  gesture g s = (s, [chat_handleSubmit]) /\
  (forall g' input messages,
     g' = PressEnter \/ g' = ClickSubmit ->
     List.filter is_handleSubmit
       (run s [User g; Hook submitted input messages; User g']).2
       = [chat_handleSubmit; chat_handleSubmit]).
Proof.
  intros Hg Herr Hstatus.
  assert (Haccept : forall g0 s0,
            g0 = PressEnter \/ g0 = ClickSubmit ->
            hasError s0 = None -> chat_status s0 <> streaming ->
            gesture g0 s0 = (s0, [chat_handleSubmit])).
  { intros g0 s0 Hg0 Herr0 Hstatus0.
    assert (Hload : isChatLoading s0 = false)
      by (unfold isChatLoading; destruct (chat_status s0); congruence).
    assert (Hform : bool_decide (is_Some (hasError s0)) = false)
      by (rewrite Herr0; reflexivity).
    unfold ChatWindow.gesture, input_disabled, submit_disabled, ChatInput_props. cbn.
    rewrite Hload, Hform. cbn. unfold sendMessage. rewrite Hload.
    rewrite <- Herr0, setHasError_same. destruct Hg0 as [-> | ->]; reflexivity. }
  split; [apply Haccept; assumption|].
  intros g' input messages Hg'. rewrite !run_cons. cbn [ChatWindow.step].
  rewrite (Haccept g s Hg Herr Hstatus). cbn [fst snd].
  rewrite Haccept; [reflexivity | exact Hg' | exact Herr | discriminate].
Qed.

(** One event that keeps a blocked window blocked. *)
Lemma step_keeps_blocked s ev :
  is_Some (hasError s) -> keeps_blocked ev = true ->
  is_Some (hasError (step s ev).1) /\
  List.filter is_handleSubmit (step s ev).2 = [] /\
  location_href (step s ev).1 = location_href s.
Proof.
  intros Hset Hev. destruct ev as [g|r|c|e|st i ms]; cbn in Hev |- *.
  - destruct g; [| |discriminate];
      rewrite gesture_blocked by (assumption || discriminate); auto.
  - unfold onResponse. rewrite Hev. cbn. eauto.
  - discriminate.
  - eauto.
  - auto.
Qed.

(** X18.  A blocked window stays blocked, hands nothing to the hook and stays
    on its page along any sequence of submissions, non-success responses,
    transport failures and re-renders: only Retry, a success response or a
    completion can end the blocking. *)
Theorem blocked_window_stays_blocked (evs : list Event) (s : State) :
  is_Some (hasError s) -> forallb keeps_blocked evs = true ->
  is_Some (hasError (run s evs).1) /\
  List.filter is_handleSubmit (run s evs).2 = [] /\
  location_href (run s evs).1 = location_href s.
Proof.
  revert s. induction evs as [|ev evs IH]; intros s Hset Hall; [auto|].
  cbn [forallb] in Hall. apply andb_true_iff in Hall as [Hev Hrest].
  destruct (step_keeps_blocked s ev Hset Hev) as (Hset1 & Hnone1 & Hhref1).
  destruct (IH _ Hset1 Hrest) as (Hset2 & Hnone2 & Hhref2).
  rewrite run_cons. cbn [fst snd]. rewrite List.filter_app, Hnone1, Hnone2, Hhref2, Hhref1.
  auto.
Qed.

(** X19.  The [catch] of the promise chain also takes what the [then]
    callback throws: a non-success response whose body is the JSON value
    [null], or whose [error] member is an object that cannot be turned into a
    string, sets 'Request failed with status N' like a body that does not
    parse. *)
Theorem unusable_error_bodies_report_the_status (r : FetchResponse) (s : State) :
  ok r = false ->
  response_json r = Return JNull \/
  (exists data members,
     response_json r = Return data /\
     get_property data "error" = Return (Some (JObj members)) /\
     is_Some (own_property "toString" members)) ->
  hasError (onResponse r s).1
    = Some (new_Error ("Request failed with status " ++ decimal (response_status r))).
Proof.
  intros Hok Hbody. unfold onResponse. rewrite Hok. cbn. f_equal.
  destruct Hbody as [Hnull | (data & members & Hd & He & [x Hx])].
  - exact (response_error_null _ Hnull).
  - unfold response_error, error_of_data. rewrite Hd. cbn. rewrite He. cbn. rewrite Hx.
    reflexivity.
Qed.

End ChatWindowCoverage.

(* ===================================================================== *)
(** * The further statements at concrete inputs *)
(* ===================================================================== *)

Section CoverageInstances.
Import Js Agent Examples Scenarios.

(** A body the parser rejects with status 400, on a server without keys. *)
Lemma unreadable_request_gets_the_parser_status :
  GoogleRoute.POST echo TEMPLATE MODEL unreadable_request unconfigured =
    {| console_output :=
         [ {| level := error; text := "API error:"; arg := Some bad_request_error |} ];
       outcome := Return (NextResponse_json (Some "Unexpected end of JSON input") 400) |}.
Proof.
  apply (unreadable_body_is_answered_by_the_catch_all echo TEMPLATE MODEL
           unreadable_request unconfigured bad_request_error).
  - reflexivity.
  - unfold RouteView.status_accepted. cbn. lia.
Defined.

(** [messages] is a string. *)
Lemma string_messages_get_a_500 :
  exists m,
    outcome (GoogleRoute.POST echo TEMPLATE MODEL string_messages_request unconfigured)
      = Return (NextResponse_json (Some m) 500).
Proof.
  destruct (malformed_messages_are_rejected echo TEMPLATE MODEL string_messages_request
              (JObj [("messages", JStr "hello")]) (JStr "hello"))
    as (e & _ & _ & _ & Hgoogle & _).
  - reflexivity.
  - reflexivity.
  - left. split; [discriminate | reflexivity].
  - exact (Hgoogle unconfigured).
Defined.

(** Everything configured: six tools, in order. *)
Lemma fully_configured_tools :
  exists stream rest,
    outcome (GoogleRoute.POST echo TEMPLATE MODEL chat_request fully_configured)
      = Return (toDataStreamResponse stream) /\
    tools (agent stream) = Calculator :: SerpAPI "s-key" :: rest /\
    rest = GoogleRoute.google_tools "ya29.token" (GoogleRoute.llm MODEL "g-key").
Proof.
  destruct (search_key_adds_the_search_tool echo TEMPLATE MODEL chat_request fully_configured
              chat_body chat_history "g-key" "s-key")
    as (stream & rest & Hout & Htools & _ & Hfull);
    try (vm_compute; reflexivity).
  exists stream, rest. split; [exact Hout|]. split; [exact Htools|].
  apply (Hfull (Some "ya29.token") "ya29.token"); reflexivity.
Defined.

(** An empty token: the sign-out note, and no constructor is called. *)
Lemma empty_token_is_no_token :
  exists basic lines0,
    GoogleRoute.POST echo TEMPLATE MODEL chat_request empty_token =
      {| console_output := (lines0 ++ [GoogleRoute.no_token_warning])%list;
         outcome :=
           Return (GoogleRoute.respond (GoogleRoute.llm MODEL "g-key") basic
                     (TEMPLATE ++ GoogleRoute.NO_TOKEN_NOTE) chat_history) |}.
Proof.
  destruct (missing_token_degrades_without_building_tools echo TEMPLATE MODEL chat_request
              empty_token chat_body chat_history "g-key")
    as (basic & lines0 & _ & Hpost & _);
    try (vm_compute; reflexivity).
  - right. reflexivity.
  - exists basic, lines0. exact Hpost.
Defined.

(** The calendar constructor throws: its error is the one reported. *)
Lemma calendar_failure_is_reported :
  exists basic lines0,
    GoogleRoute.POST echo TEMPLATE MODEL chat_request calendar_down =
      {| console_output :=
           (lines0 ++ GoogleRoute.retrieved_line :: GoogleRoute.fallback_lines calendar_error)%list;
         outcome :=
           Return (GoogleRoute.respond (GoogleRoute.llm MODEL "g-key") basic
                     (TEMPLATE ++ GoogleRoute.ERROR_NOTE calendar_error) chat_history) |}.
Proof.
  destruct (first_failing_constructor_decides echo TEMPLATE MODEL chat_request calendar_down
              chat_body chat_history "g-key" (Some "ya29.token") "ya29.token" calendar_error)
    as (basic & lines0 & _ & Hpost);
    try (vm_compute; reflexivity).
  exists basic, lines0. exact Hpost.
Defined.

(** Signed in: the template is the system template, and Gmail is there. *)
Lemma signed_in_template_matches :
  messageModifier (agent signed_in_stream) = TEMPLATE <->
  exists token, GmailSearch token ∈ tools (agent signed_in_stream).
Proof.
  apply (proj2 (template_matches_the_tools echo TEMPLATE MODEL chat_request signed_in
                  signed_in_stream ltac:(vm_compute; reflexivity))).
Defined.

(** The search warning is one of the fixed texts. *)
Lemma search_warning_is_a_fixed_text :
  text GoogleRoute.search_warning ∈ RouteView.console_literals.
Proof.
  apply (proj1 (console_lines_are_fixed_texts echo TEMPLATE MODEL chat_request signed_in
                  GoogleRoute.search_warning
                  ltac:(vm_compute; apply list_elem_of_here))).
Defined.

(** The body [null]: an error answer, with a text. *)
Lemma null_body_answer_has_a_text :
  exists m, Some "Cannot read properties of null (reading 'messages')" = Some m /\ m <> "".
Proof.
  destruct (error_answers_carry_a_text echo TEMPLATE MODEL null_request signed_in
              (Some "Cannot read properties of null (reading 'messages')") 500)
    as (m & Herr & Hne & _).
  - vm_compute. reflexivity.
  - exists m. split; assumption.
Defined.

(** Unreadable body, no keys: still an answer. *)
Lemma unreadable_request_is_answered :
  exists r,
    outcome (GoogleRoute.POST echo TEMPLATE MODEL unreadable_request unconfigured) = Return r /\
    200 <= http_status r <= 599.
Proof.
  apply (POST_always_answers echo TEMPLATE MODEL unreadable_request unconfigured).
  intros e He. injection He as <-. unfold RouteView.status_accepted. cbn. lia.
Defined.

(** The plain route on [chat_request]. *)
Lemma plain_route_is_silent :
  console_output (PlainRoute.POST echo chat_request) = [].
Proof.
  apply (proj1 (plain_route_streams_or_forwards_the_error echo chat_request
                  ltac:(intros e He; discriminate He))).
Defined.

(** A question, then a tool step and the answer. *)
Lemma continued_conversation_history :
  history echo (RouteView.conversation (opening ++ continuation))
    = Return ([chat_message "user" "What is 2 + 2?"] ++ [chat_message "assistant" "4"])%list /\
  length [chat_message "user" "What is 2 + 2?"] <= length opening.
Proof.
  apply (history_of_a_continued_conversation echo opening continuation); vm_compute; reflexivity.
Defined.

(** A 403 blocks the window that was receiving. *)
Lemma forbidden_response_blocks :
  is_Some (ChatWindow.hasError
             (ChatWindow.step None receiving (ChatWindow.Response forbidden_response)).1) /\
  ChatWindow.placeholder
    (ChatWindow.ChatInput_props None
       (ChatWindow.step None receiving (ChatWindow.Response forbidden_response)).1)
    = "Please retry connection before sending messages".
Proof.
  destruct (failures_block_the_window None receiving (ChatWindow.Response forbidden_response))
    as (Hset & _ & _ & Hplaceholder & _).
  - left. exists forbidden_response. split; reflexivity.
  - split; [exact Hset | exact Hplaceholder].
Defined.

(** The window without messages: not even Retry. *)
Lemma stuck_window_ignores_retry :
  ChatView.banner stuck = None /\ ChatWindow.retry_rendered stuck = false /\
  ChatWindow.gesture None ChatWindow.ClickRetry stuck = (stuck, []).
Proof.
  apply (error_without_messages_is_a_dead_end None stuck ChatWindow.ClickRetry).
  - exists (new_Error "Failed to fetch"). reflexivity.
  - reflexivity.
Defined.

(** A 403 with [{ "error": "forbidden" }]: the banner reads "forbidden". *)
Lemma forbidden_banner :
  ChatView.banner (ChatWindow.onResponse forbidden_response receiving).1 = Some "forbidden".
Proof.
  destruct (proj2 (proj2 (banner_shows_the_message receiving))) as (Hresponse & _ & _).
  - discriminate.
  - apply (Hresponse forbidden_response (JObj [("error", JStr "forbidden")]) "forbidden");
      [reflexivity | reflexivity | reflexivity | discriminate].
Defined.

(** Two submissions and a failure: still on the page. *)
Lemma overlapping_requests_stay_on_the_page :
  ChatWindow.location_href (ChatWindow.run None fresh overlapping_requests).1 = "/".
Proof.
  apply (proj1 (only_retry_navigates None overlapping_requests fresh)). reflexivity.
Defined.

(** Enter, right after a submission. *)
Lemma second_submission_is_handed_over :
  ChatWindow.gesture None ChatWindow.PressEnter awaiting
    = (awaiting, [ChatWindow.chat_handleSubmit]).
Proof.
  apply (proj1 (submission_is_accepted_before_the_stream_starts None ChatWindow.PressEnter
                  awaiting (or_introl eq_refl) eq_refl ltac:(discriminate))).
Defined.

(** Submissions, a 403, a re-render and a failure on the blocked window. *)
Lemma blocked_traffic_changes_nothing :
  is_Some (ChatWindow.hasError (ChatWindow.run None blocked blocked_traffic).1) /\
  List.filter ChatView.is_handleSubmit (ChatWindow.run None blocked blocked_traffic).2 = [] /\
  ChatWindow.location_href (ChatWindow.run None blocked blocked_traffic).1
    = ChatWindow.location_href blocked.
Proof.
  apply (blocked_window_stays_blocked None blocked_traffic blocked).
  - exists (new_Error "forbidden"). reflexivity.
  - reflexivity.
Defined.

(** A 502 whose body is [null]. *)
Lemma null_body_reports_502 :
  ChatWindow.hasError (ChatWindow.onResponse null_body_response receiving).1
    = Some (new_Error "Request failed with status 502").
Proof.
  apply (unusable_error_bodies_report_the_status null_body_response receiving).
  - reflexivity.
  - left. reflexivity.
Defined.

End CoverageInstances.
